(** * KubeStateProcessor: kube-state-metrics families to gauges and service checks

    Shallow embedding of [utils/kubernetes/kube_state_processor.py].

    The processor receives a decoded metric family (a name and a sequence of
    samples, each with labels and a gauge value) together with keyword
    arguments, looks a method up under the family's name and runs it.  The
    methods hand gauges and service checks to the check object and write
    debug lines to its logger.  Those three sinks are the only effects, so a
    computation is modelled by the sequence of sink calls it performs
    together with either its result or the exception it raises.

    The sinks belong to the check object and are taken to return; label
    names and values are strings and ['{}'.format] of a string is that
    string; the gauge value is a binary64 float, which the methods only
    pass on and test for truth. *)

From Stdlib Require Import List String Ascii Bool ZArith Lia.
From Stdlib Require Import Floats.PrimFloat.
Import ListNotations.
Open Scope list_scope.
Open Scope string_scope.

(** ** Data model *)

(** A protobuf [LabelPair]: [label.name], [label.value]. *)
Record LabelPair : Type := mkLabel {
  l_name : string;
  l_value : string
}.

(** A protobuf [Metric]: [metric.label] and [metric.gauge.value] (a double). *)
Record Metric : Type := mkMetric {
  m_label : list LabelPair;
  m_gauge_value : float
}.

(** A protobuf [MetricFamily]: [message.name] and [message.metric]. *)
Record MetricFamily : Type := mkFamily {
  mf_name : string;
  mf_metric : list Metric
}.

(** Values that can travel in [**kwargs]: what a YAML instance can hold. *)
#[warnings="-register-all"]
Inductive pyval : Type :=
| VNone
| VInt (z : Z)
| VStr (s : string)
| VList (l : list pyval)
| VDict (d : list (string * pyval)).

(** A dict with string keys; the first binding of a key is the live one. *)
Definition Kwargs : Type := list (string * pyval).

(** [kube_check.OK], [WARNING], [CRITICAL] and [UNKNOWN]. *)
Inductive status : Type := OK | WARNING | CRITICAL | UNKNOWN.

(** The exceptions the interpreter raises on the paths of this module. *)
Inductive exn : Type :=
| AttributeError
| IndexError
| TypeError
| RuntimeError.

(** One call to a sink of the check object. *)
Inductive event : Type :=
| EGauge (metric_name : string) (val : float) (tags : list string)
| EServiceCheck (check_name : string) (st : status) (tags : list string)
| ELogDebug (msg : string).

Definition is_emission (e : event) : bool :=
  match e with
  | EGauge _ _ _ | EServiceCheck _ _ _ => true
  | ELogDebug _ => false
  end.

(** ** Effects: sink calls in order, then a value or an exception *)

Inductive result (A : Type) : Type :=
| Ok (a : A)
| Raise (e : exn).
Arguments Ok {A} a.
Arguments Raise {A} e.

Definition M (A : Type) : Type := (list event * result A)%type.

Definition ret {A} (a : A) : M A := ([], Ok a).

Definition raise {A} (e : exn) : M A := ([], Raise e).

Definition bind {A B} (m : M A) (k : A -> M B) : M B :=
  match m with
  | (t, Ok a) => let '(t', r) := k a in ((t ++ t')%list, r)
  | (t, Raise e) => (t, Raise e)
  end.

Notation "x <- m ;; k" := (bind m (fun x => k))
  (at level 61, m at next level, right associativity).
Notation "m ;;; k" := (bind m (fun _ => k))
  (at level 61, right associativity).

Definition emit (e : event) : M unit := ([e], Ok tt).

(** [self.gauge(metric_name, val, tags)] *)
Definition gauge (metric_name : string) (val : float) (tags : list string) : M unit :=
  emit (EGauge metric_name val tags).

(** [self.kube_check.service_check(name, status, tags=tags)] *)
Definition service_check (check_name : string) (st : status) (tags : list string) : M unit :=
  emit (EServiceCheck check_name st tags).

(** [self.log.debug(msg)] *)
Definition log_debug (msg : string) : M unit := emit (ELogDebug msg).

(** [for x in xs: body(x)]: an exception ends the loop. *)
Fixpoint for_each {A} (xs : list A) (body : A -> M unit) : M unit :=
  match xs with
  | [] => ret tt
  | x :: xs' => body x ;;; for_each xs' body
  end.

(** [try: m  except AttributeError: handler] *)
Definition try_except_AttributeError (m : M unit) (handler : M unit) : M unit :=
  match m with
  | (t, Raise AttributeError) => let '(t', r) := handler in ((t ++ t')%list, r)
  | other => other
  end.

Definition trace {A} (m : M A) : list event := fst m.
Definition outcome {A} (m : M A) : result A := snd m.
Definition emissions {A} (m : M A) : list event := filter is_emission (trace m).

(** ** Python primitives used by the methods *)

(** [bool(x)] for a float: everything but a zero is true. *)
Definition py_bool (x : float) : bool := negb (PrimFloat.eqb x 0%float).

(** ['{}'.format(x)] for a string or [None]. *)
Definition py_format (x : option string) : string :=
  match x with
  | Some s => s
  | None => "None"
  end.

(** [x == s and val] for [x] a string or [None] and [val] a bool or [None]. *)
Definition eq_and (x : option string) (s : string) (val : option bool) : bool :=
  match x with
  | Some n => String.eqb n s && match val with Some b => b | None => false end
  | None => false
  end.

(** [d.get(k)]: [None] stands for a missing key here, the caller supplies
    the default. *)
Fixpoint dict_get (d : list (string * pyval)) (k : string) : option pyval :=
  match d with
  | [] => None
  | (k', v) :: d' => if String.eqb k' k then Some v else dict_get d' k
  end.

(** [v.get(k)] on an arbitrary value: only a dict has the method. *)
Definition py_get (v : pyval) (k : string) : M pyval :=
  match v with
  | VDict d => ret (match dict_get d k with Some x => x | None => VNone end)
  | _ => raise AttributeError
  end.

(** [x == y] for [x] a string or [None]. *)
Definition py_eq (x : option string) (y : pyval) : bool :=
  match x, y with
  | None, VNone => true
  | Some s, VStr s' => String.eqb s s'
  | _, _ => false
  end.

(** [needle in hay] for two strings. *)
Fixpoint is_substring (needle hay : string) : bool :=
  String.prefix needle hay ||
  match hay with
  | EmptyString => false
  | String _ hay' => is_substring needle hay'
  end.

(** [x in c] for [x] a string or [None]: list membership, dict key
    membership, substring of a string; anything else is not a container. *)
Definition py_in (x : option string) (c : pyval) : M bool :=
  match c with
  | VList l => ret (existsb (py_eq x) l)
  | VDict d => ret (match x with
                    | Some s => existsb (fun kv => String.eqb (fst kv) s) d
                    | None => false
                    end)
  | VStr hay => match x with
                | Some s => ret (is_substring s hay)
                | None => raise TypeError
                end
  | VInt _ | VNone => raise TypeError
  end.

(** ** The two shared helpers *)

(** The loop of [_eval_metric_condition] over [metric.label], [val] being
    computed before it. *)
Fixpoint eval_condition_loop (val : bool) (labels : list LabelPair)
  : option string * option bool :=
  match labels with
  | [] => (None, None)
  | label :: rest =>
      if String.eqb (l_name label) "condition"
      then (Some (l_value label), Some val)
      else eval_condition_loop val rest
  end.

(** [_eval_metric_condition(self, metric)]: the value of the first label
    named "condition" with the truth value of the gauge, or [None, None]. *)
Definition _eval_metric_condition (metric : Metric) : option string * option bool :=
  let val := py_bool (m_gauge_value metric) in
  eval_condition_loop val (m_label metric).

(** [_extract_label_value(self, name, labels)] *)
Fixpoint _extract_label_value (name : string) (labels : list LabelPair) : option string :=
  match labels with
  | [] => None
  | label :: rest =>
      if String.eqb (l_name label) name
      then Some (l_value label)
      else _extract_label_value name rest
  end.

(** ** Gauge methods *)

(** [metric.label[0]]: indexing an empty sequence raises. *)
Definition label_0 (metric : Metric) : M LabelPair :=
  match m_label metric with
  | label :: _ => ret label
  | [] => raise IndexError
  end.

Definition kube_node_status_capacity_cpu_cores
    (message : MetricFamily) (kwargs : Kwargs) : M unit :=
  let metric_name := "kubernetes.node.cpu_capacity" in
  for_each (mf_metric message) (fun metric =>
    let val := m_gauge_value metric in
    label0 <- label_0 metric ;;
    let tags := ["host:" ++ py_format (Some (l_value label0))] in
    gauge metric_name val tags).

Definition kube_node_status_capacity_memory_bytes
    (message : MetricFamily) (kwargs : Kwargs) : M unit :=
  let metric_name := "kubernetes.node.memory_capacity" in
  for_each (mf_metric message) (fun metric =>
    let val := m_gauge_value metric in
    let tags := ["host:" ++ py_format (_extract_label_value "node" (m_label metric))] in
    gauge metric_name val tags).

Definition kube_node_status_capacity_pods
    (message : MetricFamily) (kwargs : Kwargs) : M unit :=
  let metric_name := "kubernetes.node.pods_capacity" in
  for_each (mf_metric message) (fun metric =>
    let val := m_gauge_value metric in
    let tags := ["host:" ++ py_format (_extract_label_value "node" (m_label metric))] in
    gauge metric_name val tags).

Definition kube_node_status_allocateable_cpu_cores
    (message : MetricFamily) (kwargs : Kwargs) : M unit :=
  let metric_name := "kubernetes.node.cpu_allocatable" in
  for_each (mf_metric message) (fun metric =>
    let val := m_gauge_value metric in
    let tags := ["host:" ++ py_format (_extract_label_value "node" (m_label metric))] in
    gauge metric_name val tags).

Definition kube_node_status_allocateable_memory_bytes
    (message : MetricFamily) (kwargs : Kwargs) : M unit :=
  let metric_name := "kubernetes.node.memory_allocatable" in
  for_each (mf_metric message) (fun metric =>
    let val := m_gauge_value metric in
    let tags := ["host:" ++ py_format (_extract_label_value "node" (m_label metric))] in
    gauge metric_name val tags).

Definition kube_node_status_allocateable_pods
    (message : MetricFamily) (kwargs : Kwargs) : M unit :=
  let metric_name := "kubernetes.node.pods_allocatable" in
  for_each (mf_metric message) (fun metric =>
    let val := m_gauge_value metric in
    let tags := ["host:" ++ py_format (_extract_label_value "node" (m_label metric))] in
    gauge metric_name val tags).

(** ['{}:{}'.format(label.name, label.value)] *)
Definition format_label (label : LabelPair) : string :=
  py_format (Some (l_name label)) ++ ":" ++ py_format (Some (l_value label)).

Definition kube_deployment_status_replicas_available
    (message : MetricFamily) (kwargs : Kwargs) : M unit :=
  let metric_name := "kubernetes.deployment.replicas_available" in
  for_each (mf_metric message) (fun metric =>
    let val := m_gauge_value metric in
    let tags := map format_label (m_label metric) in
    gauge metric_name val tags).

Definition kube_deployment_status_replicas_unavailable
    (message : MetricFamily) (kwargs : Kwargs) : M unit :=
  let metric_name := "kubernetes.deployment.replicas_unavailable" in
  for_each (mf_metric message) (fun metric =>
    let val := m_gauge_value metric in
    let tags := map format_label (m_label metric) in
    gauge metric_name val tags).

Definition kube_deployment_status_replicas_updated
    (message : MetricFamily) (kwargs : Kwargs) : M unit :=
  let metric_name := "kubernetes.deployment.replicas_updated" in
  for_each (mf_metric message) (fun metric =>
    let val := m_gauge_value metric in
    let tags := map format_label (m_label metric) in
    gauge metric_name val tags).

Definition kube_deployment_spec_replicas
    (message : MetricFamily) (kwargs : Kwargs) : M unit :=
  let metric_name := "kubernetes.deployment.replicas_desired" in
  for_each (mf_metric message) (fun metric =>
    let val := m_gauge_value metric in
    let tags := map format_label (m_label metric) in
    gauge metric_name val tags).

(** ** Service-check methods *)

(** The branches of [kube_node_status_ready] on [(name, val)]:
    [if ... elif ... elif ...]. *)
Definition ready_elif_chain (service_check_name : string) (tags : list string)
    (name : option string) (val : option bool) : M unit :=
  if eq_and name "true" val then
    service_check service_check_name OK tags
  else if eq_and name "false" val then
    service_check service_check_name CRITICAL tags
  else if eq_and name "unknown" val then
    service_check service_check_name UNKNOWN tags
  else ret tt.

(** The branches of [kube_pod_status_ready] on [(name, val)]:
    [if ...] followed by [if ... elif ...]. *)
Definition ready_if_then_if_elif (service_check_name : string) (tags : list string)
    (name : option string) (val : option bool) : M unit :=
  (if eq_and name "true" val then
     service_check service_check_name OK tags
   else ret tt) ;;;
  (if eq_and name "false" val then
     service_check service_check_name CRITICAL tags
   else if eq_and name "unknown" val then
     service_check service_check_name UNKNOWN tags
   else ret tt).

Definition kube_node_status_ready
    (message : MetricFamily) (kwargs : Kwargs) : M unit :=
  let service_check_name := "kube_node_status_ready" in
  for_each (mf_metric message) (fun metric =>
    let '(name, val) := _eval_metric_condition metric in
    let tags := ["host:" ++ py_format (_extract_label_value "node" (m_label metric))] in
    ready_elif_chain service_check_name tags name val).

Definition kube_node_status_out_of_disk
    (message : MetricFamily) (kwargs : Kwargs) : M unit :=
  let service_check_name := "kube_node_status_out_of_disk" in
  for_each (mf_metric message) (fun metric =>
    let '(name, val) := _eval_metric_condition metric in
    let tags := ["host:" ++ py_format (_extract_label_value "node" (m_label metric))] in
    if eq_and name "true" val then
      service_check service_check_name CRITICAL tags
    else if eq_and name "false" val then
      service_check service_check_name OK tags
    else if eq_and name "unknown" val then
      service_check service_check_name UNKNOWN tags
    else ret tt).

(** [kwargs.get('instance', {})] *)
Definition kwargs_get_instance (kwargs : Kwargs) : pyval :=
  match dict_get kwargs "instance" with
  | Some v => v
  | None => VDict []
  end.

Definition kube_pod_status_ready
    (message : MetricFamily) (kwargs : Kwargs) : M unit :=
  let service_check_name := "kube_pod_status_ready" in
  configured_pods <- py_get (kwargs_get_instance kwargs) "status_ready_for_pods" ;;
  match configured_pods with
  | VNone =>
      log_debug "no pods configured, kube_pod_status_ready has nothing to do, returning..."
  | _ =>
      for_each (mf_metric message) (fun metric =>
        let pod_name := _extract_label_value "pod" (m_label metric) in
        listed <- py_in pod_name configured_pods ;;
        if negb listed then ret tt (* continue *)
        else
          let '(name, val) := _eval_metric_condition metric in
          let tags :=
            [ "namespace:" ++ py_format (_extract_label_value "namespace" (m_label metric));
              "pod:" ++ py_format pod_name ] in
          ready_if_then_if_elif service_check_name tags name val)
  end.

(** ** The dispatcher *)

Definition handler : Type := MetricFamily -> Kwargs -> M unit.

(** The methods of the class that take [(message, **kwargs)], under the
    names [getattr] finds them by. *)
Definition handlers : list (string * handler) :=
  [ ("kube_node_status_capacity_cpu_cores", kube_node_status_capacity_cpu_cores);
    ("kube_node_status_capacity_memory_bytes", kube_node_status_capacity_memory_bytes);
    ("kube_node_status_capacity_pods", kube_node_status_capacity_pods);
    ("kube_node_status_allocateable_cpu_cores", kube_node_status_allocateable_cpu_cores);
    ("kube_node_status_allocateable_memory_bytes", kube_node_status_allocateable_memory_bytes);
    ("kube_node_status_allocateable_pods", kube_node_status_allocateable_pods);
    ("kube_deployment_status_replicas_available", kube_deployment_status_replicas_available);
    ("kube_deployment_status_replicas_unavailable", kube_deployment_status_replicas_unavailable);
    ("kube_deployment_status_replicas_updated", kube_deployment_status_replicas_updated);
    ("kube_deployment_spec_replicas", kube_deployment_spec_replicas);
    ("kube_node_status_ready", kube_node_status_ready);
    ("kube_node_status_out_of_disk", kube_node_status_out_of_disk);
    ("kube_pod_status_ready", kube_pod_status_ready) ].

(** The other attributes the class gives an instance: its remaining
    methods and the three fields set by [__init__]. *)
Definition other_attributes : list string :=
  [ "__init__"; "process"; "_eval_metric_condition"; "_extract_label_value";
    "kube_check"; "log"; "gauge" ].

Fixpoint find_handler (name : string) (table : list (string * handler)) : option handler :=
  match table with
  | [] => None
  | (n, h) :: table' => if String.eqb n name then Some h else find_handler name table'
  end.

(** [for x in v]: the items a value yields when iterated; a number and
    [None] cannot be iterated. *)
Definition py_iter (v : pyval) : M (list pyval) :=
  match v with
  | VList l => ret l
  | VDict d => ret (map (fun kv => VStr (fst kv)) d)
  | VStr s => ret (map (fun c => VStr (String c EmptyString)) (list_ascii_of_string s))
  | VInt _ | VNone => raise TypeError
  end.

(** [self._eval_metric_condition(message, **kwargs)], the helper called
    the way [process] calls what it finds.  The helper has the one parameter
    [metric], so any keyword is a [TypeError]; without keywords its body
    begins with [metric.gauge] on a metric family, which has no such
    field. *)
Definition call_eval_metric_condition (message : MetricFamily) (kwargs : Kwargs) : M unit :=
  match kwargs with
  | [] => raise AttributeError
  | _ :: _ => raise TypeError
  end.

(** [self._extract_label_value(message, **kwargs)].  The family fills the
    parameter [name]; the keywords must supply [labels] and nothing else,
    or the call is a [TypeError].  The body then iterates [labels] and reads
    [label.name] of the first item, which no value that travels in the
    keywords has; with nothing to iterate it returns. *)
Definition call_extract_label_value (message : MetricFamily) (kwargs : Kwargs) : M unit :=
  if forallb (fun kv => String.eqb (fst kv) "labels") kwargs then
    match dict_get kwargs "labels" with
    | Some labels =>
        items <- py_iter labels ;;
        match items with
        | [] => ret tt
        | _ :: _ => raise AttributeError
        end
    | None => raise TypeError
    end
  else raise TypeError.

Inductive attribute : Type :=
| Handler (h : handler)
| EvalMetricCondition
| ExtractLabelValue
| Other (name : string).

Section Dispatcher.

(** Which names beyond those of the class the interpreter gives an
    instance ([__class__], [__dict__], [__doc__], ...) depends on the
    interpreter; the set is left open. *)
Variable interpreter_gives : string -> bool.

(** What calling one of the remaining attributes ([__init__], [process],
    the three fields, an interpreter name) with [(message, **kwargs)] does
    rests on the interpreter and on the objects the check supplies; it is
    left open. *)
Variable call_other : string -> MetricFamily -> Kwargs -> M unit.

(** [getattr(self, name)]; [None] is the lookup raising [AttributeError]:
    the name is no handler, no other attribute of the class and not one the
    interpreter gives. *)
Definition getattr_self (name : string) : option attribute :=
  match find_handler name handlers with
  | Some h => Some (Handler h)
  | None =>
      if String.eqb name "_eval_metric_condition" then Some EvalMetricCondition
      else if String.eqb name "_extract_label_value" then Some ExtractLabelValue
      else if existsb (String.eqb name) other_attributes || interpreter_gives name
      then Some (Other name)
      else None
  end.

Definition call (a : attribute) (message : MetricFamily) (kwargs : Kwargs) : M unit :=
  match a with
  | Handler h => h message kwargs
  | EvalMetricCondition => call_eval_metric_condition message kwargs
  | ExtractLabelValue => call_extract_label_value message kwargs
  | Other name => call_other name message kwargs
  end.

(** [process(self, message, **kwargs)]: lookup and call are both inside
    the [try]. *)
Definition process (message : MetricFamily) (kwargs : Kwargs) : M unit :=
  try_except_AttributeError
    (match getattr_self (mf_name message) with
     | Some a => call a message kwargs
     | None => raise AttributeError
     end)
    (log_debug ("Unable to handle metric: " ++ mf_name message)).

End Dispatcher.

(** * Vocabulary of the properties *)

(** An interpreter that gives an instance every name that begins with two
    underscores. *)
Definition dunder_names (name : string) : bool := String.prefix "__" name.

(** Some label of the sequence carries the name. *)
Definition has_label (name : string) (labels : list LabelPair) : bool :=
  existsb (fun label => String.eqb (l_name label) name) labels.

(** A sample with a node label and a gauge of one, and no condition label. *)
Definition sample_without_condition : Metric :=
  mkMetric [mkLabel "node" "nodeA"] 1%float.

(** The tag of the node families that look the label named "node" up. *)
Definition node_host_tag (metric : Metric) : string :=
  "host:" ++ py_format (_extract_label_value "node" (m_label metric)).

(** The handler turns every sample into one gauge of the given name, with
    the sample's value and the node tag, in the order of the samples. *)
Definition gauges_by_node_label (h : handler) (metric_name : string) : Prop :=
  forall message kwargs,
    h message kwargs =
    (map (fun metric => EGauge metric_name (m_gauge_value metric) [node_host_tag metric])
       (mf_metric message),
     Ok tt).

(** The handler turns every sample into one gauge of the given name, with
    the sample's value and one tag per label, in the order of the samples. *)
Definition gauges_by_all_labels (h : handler) (metric_name : string) : Prop :=
  forall message kwargs,
    h message kwargs =
    (map (fun metric =>
            EGauge metric_name (m_gauge_value metric)
              (map (fun label => l_name label ++ ":" ++ l_value label) (m_label metric)))
       (mf_metric message),
     Ok tt).

(** Sink calls of one sample of a node condition family: the check that
    belongs to the asserted condition, if any. *)
Definition condition_checks (check_name : string)
    (on_true on_false on_unknown : status) (metric : Metric) : list event :=
  match _extract_label_value "condition" (m_label metric) with
  | Some c =>
      if py_bool (m_gauge_value metric) then
        if String.eqb c "true" then
          [EServiceCheck check_name on_true [node_host_tag metric]]
        else if String.eqb c "false" then
          [EServiceCheck check_name on_false [node_host_tag metric]]
        else if String.eqb c "unknown" then
          [EServiceCheck check_name on_unknown [node_host_tag metric]]
        else []
      else []
  | None => []
  end.

(** What a node condition family does, sample by sample: the handler [h]
    issues checks named [check_name] and maps the asserted condition "true",
    "false", "unknown" to [on_true], [on_false], [on_unknown]. *)
Definition condition_mapping (h : handler) (check_name : string)
    (on_true on_false on_unknown : status) : Prop :=
  forall (family_name : string) (kwargs : Kwargs),
    let one metric := h (mkFamily family_name [metric]) kwargs in
    let check metric st := EServiceCheck check_name st [node_host_tag metric] in
    let condition metric := _extract_label_value "condition" (m_label metric) in
    let asserted metric := py_bool (m_gauge_value metric) in
    (forall metric, condition metric = Some "true" -> asserted metric = true ->
       one metric = ([check metric on_true], Ok tt)) /\
    (forall metric, condition metric = Some "false" -> asserted metric = true ->
       one metric = ([check metric on_false], Ok tt)) /\
    (forall metric, condition metric = Some "unknown" -> asserted metric = true ->
       one metric = ([check metric on_unknown], Ok tt)) /\
    (forall metric c, condition metric = Some c ->
       c <> "true" -> c <> "false" -> c <> "unknown" ->
       one metric = ([], Ok tt)) /\
    (forall metric, has_label "condition" (m_label metric) = false ->
       one metric = ([], Ok tt)) /\
    (forall metric, asserted metric = false ->
       one metric = ([], Ok tt)) /\
    (forall samples,
       h (mkFamily family_name samples) kwargs =
       (flat_map (fun metric => trace (one metric)) samples, Ok tt)).

(** The sample of the specification: condition "true", gauge 1.0, node
    "nodeA". *)
Definition sample_nodeA_true : Metric :=
  mkMetric [mkLabel "node" "nodeA"; mkLabel "condition" "true"] 1%float.

Definition no_pods_configured_line : string :=
  "no pods configured, kube_pod_status_ready has nothing to do, returning...".

(** [status_ready_for_pods] is not configured: there is no [instance]
    keyword, or [instance] is a dict that lacks the key or holds [None]
    under it. *)
Definition pods_not_configured (kwargs : Kwargs) : Prop :=
  dict_get kwargs "instance" = None \/
  exists d, dict_get kwargs "instance" = Some (VDict d) /\
            (dict_get d "status_ready_for_pods" = None \/
             dict_get d "status_ready_for_pods" = Some VNone).

(** [status_ready_for_pods] is configured as the list [pods] of pod names. *)
Definition pods_configured (kwargs : Kwargs) (pods : list string) : Prop :=
  exists d, dict_get kwargs "instance" = Some (VDict d) /\
            dict_get d "status_ready_for_pods" = Some (VList (map VStr pods)).

(** The sample's "pod" label value is in the allow-list. *)
Definition pod_listed (pods : list string) (metric : Metric) : bool :=
  match _extract_label_value "pod" (m_label metric) with
  | Some pod => existsb (String.eqb pod) pods
  | None => false
  end.

(** The status of the condition a sample asserts: its gauge is true and
    its condition label is one of the three states. *)
Definition asserted_status (metric : Metric) : option status :=
  if py_bool (m_gauge_value metric) then
    match _extract_label_value "condition" (m_label metric) with
    | Some c =>
        if String.eqb c "true" then Some OK
        else if String.eqb c "false" then Some CRITICAL
        else if String.eqb c "unknown" then Some UNKNOWN
        else None
    | None => None
    end
  else None.

Definition is_asserted (metric : Metric) : bool :=
  match asserted_status metric with Some _ => true | None => false end.

Definition pod_tags (metric : Metric) : list string :=
  [ "namespace:" ++ py_format (_extract_label_value "namespace" (m_label metric));
    "pod:" ++ py_format (_extract_label_value "pod" (m_label metric)) ].

(** Sink calls of one sample of the pod-readiness family under the
    allow-list [pods]. *)
Definition pod_checks (pods : list string) (metric : Metric) : list event :=
  if pod_listed pods metric then
    match asserted_status metric with
    | Some st => [EServiceCheck "kube_pod_status_ready" st (pod_tags metric)]
    | None => []
    end
  else [].

(** The example of the specification: allow-list ["pod-a"], two samples
    with condition "true" asserted, for pod-a and for pod-b. *)
Definition sample_pod (pod : string) : Metric :=
  mkMetric [ mkLabel "namespace" "default"; mkLabel "pod" pod;
             mkLabel "condition" "true" ] 1%float.

Definition kwargs_pod_a : Kwargs :=
  [("instance", VDict [("status_ready_for_pods", VList [VStr "pod-a"])])].

(** The loop body of the pod-readiness handler with the symmetric [elif]
    chain of [kube_node_status_ready] in place of its own branches. *)
Definition pod_body_elif (configured_pods : pyval) (metric : Metric) : M unit :=
  let pod_name := _extract_label_value "pod" (m_label metric) in
  listed <- py_in pod_name configured_pods ;;
  if negb listed then ret tt
  else
    let '(name, val) := _eval_metric_condition metric in
    let tags :=
      [ "namespace:" ++ py_format (_extract_label_value "namespace" (m_label metric));
        "pod:" ++ py_format pod_name ] in
    ready_elif_chain "kube_pod_status_ready" tags name val.

(** The pod-readiness handler as the specification describes its
    siblings: the same method over [pod_body_elif]. *)
Definition kube_pod_status_ready_elif
    (message : MetricFamily) (kwargs : Kwargs) : M unit :=
  configured_pods <- py_get (kwargs_get_instance kwargs) "status_ready_for_pods" ;;
  match configured_pods with
  | VNone => log_debug no_pods_configured_line
  | _ => for_each (mf_metric message) (pod_body_elif configured_pods)
  end.

(** ** Vocabulary of the further properties *)

(** A sample that has a first label: that label, the labels after it and
    the gauge value. *)
Definition labelled_sample (s : LabelPair * list LabelPair * float) : Metric :=
  let '(first, rest, v) := s in mkMetric (first :: rest) v.

(** The gauge methods with the metric name each one publishes under. *)
Definition gauge_table : list (handler * string) :=
  [ (kube_node_status_capacity_cpu_cores, "kubernetes.node.cpu_capacity");
    (kube_node_status_capacity_memory_bytes, "kubernetes.node.memory_capacity");
    (kube_node_status_capacity_pods, "kubernetes.node.pods_capacity");
    (kube_node_status_allocateable_cpu_cores, "kubernetes.node.cpu_allocatable");
    (kube_node_status_allocateable_memory_bytes, "kubernetes.node.memory_allocatable");
    (kube_node_status_allocateable_pods, "kubernetes.node.pods_allocatable");
    (kube_deployment_status_replicas_available, "kubernetes.deployment.replicas_available");
    (kube_deployment_status_replicas_unavailable, "kubernetes.deployment.replicas_unavailable");
    (kube_deployment_status_replicas_updated, "kubernetes.deployment.replicas_updated");
    (kube_deployment_spec_replicas, "kubernetes.deployment.replicas_desired") ].

(** The methods that are one loop over [message.metric] and nothing else:
    all of them but [kube_pod_status_ready]. *)
Definition loop_handlers : list handler :=
  [ kube_node_status_capacity_cpu_cores;
    kube_node_status_capacity_memory_bytes;
    kube_node_status_capacity_pods;
    kube_node_status_allocateable_cpu_cores;
    kube_node_status_allocateable_memory_bytes;
    kube_node_status_allocateable_pods;
    kube_deployment_status_replicas_available;
    kube_deployment_status_replicas_unavailable;
    kube_deployment_status_replicas_updated;
    kube_deployment_spec_replicas;
    kube_node_status_ready;
    kube_node_status_out_of_disk ].

(** A gauge published under the given name. *)
Definition gauge_named (metric_name : string) (e : event) : Prop :=
  exists v tags, e = EGauge metric_name v tags.

(** A service check of the given name with one of the three statuses the
    methods use. *)
Definition check_named (check_name : string) (e : event) : Prop :=
  exists st tags,
    e = EServiceCheck check_name st tags /\ (st = OK \/ st = CRITICAL \/ st = UNKNOWN).

(** A readiness check read as an out-of-disk check: OK and CRITICAL trade
    places. *)
Definition invert_check (e : event) : event :=
  match e with
  | EServiceCheck _ st tags =>
      EServiceCheck "kube_node_status_out_of_disk"
        (match st with
         | OK => CRITICAL
         | CRITICAL => OK
         | other => other
         end) tags
  | other => other
  end.

(** The sample's "pod" label value occurs inside the string. *)
Definition pod_occurs_in (hay : string) (metric : Metric) : bool :=
  match _extract_label_value "pod" (m_label metric) with
  | Some pod => is_substring pod hay
  | None => false
  end.

(** Sink calls of one sample of the pod-readiness family when the sample
    counts as listed. *)
Definition pod_checks_if (listed : bool) (metric : Metric) : list event :=
  if listed then
    match asserted_status metric with
    | Some st => [EServiceCheck "kube_pod_status_ready" st (pod_tags metric)]
    | None => []
    end
  else [].

(** The line [process] writes for a family it cannot handle. *)
Definition unable_to_handle_line (family_name : string) : string :=
  "Unable to handle metric: " ++ family_name.

Ltac string_case c s :=
  let E := fresh "E" in
  destruct (String.eqb c s) eqn:E;
  [apply String.eqb_eq in E; subst c | apply String.eqb_neq in E].

(** * Properties *)

(** ** Loops whose body cannot raise *)

Lemma for_each_flat_map {A} (f : A -> list event) (body : A -> M unit) (xs : list A) :
  (forall x, In x xs -> body x = (f x, Ok tt)) ->
  for_each xs body = (flat_map f xs, Ok tt).
Proof.
  induction xs as [|x xs IH]; intros Hbody; simpl.
  - reflexivity.
  - rewrite (Hbody x (or_introl eq_refl)).
    rewrite IH by (intros y Hy; apply Hbody; right; exact Hy).
    reflexivity.
Qed.

Lemma for_each_map {A} (g : A -> event) (body : A -> M unit) (xs : list A) :
  (forall x, body x = ([g x], Ok tt)) ->
  for_each xs body = (map g xs, Ok tt).
Proof.
  intros Hbody.
  rewrite (for_each_flat_map (fun x => [g x])) by (intros; apply Hbody).
  reflexivity.
Qed.

Lemma for_each_over_map {A B} (g : A -> B) (body : B -> M unit) (xs : list A) :
  for_each (map g xs) body = for_each xs (fun x => body (g x)).
Proof.
  induction xs as [|x xs IH]; simpl; [reflexivity | now rewrite IH].
Qed.

(** ** The dispatcher *)

Section DispatcherProperties.

Variable interpreter_gives : string -> bool.
Variable call_other : string -> MetricFamily -> Kwargs -> M unit.

(** A family whose name is a handler's runs that handler inside the [try]. *)
Lemma process_handler message kwargs h :
  find_handler (mf_name message) handlers = Some h ->
  process interpreter_gives call_other message kwargs =
  try_except_AttributeError (h message kwargs)
    (log_debug ("Unable to handle metric: " ++ mf_name message)).
Proof.
  intros Hh. unfold process, getattr_self. rewrite Hh. reflexivity.
Qed.

(** A handler that returns is not disturbed by the dispatcher. *)
Lemma process_handler_returns message kwargs h t :
  find_handler (mf_name message) handlers = Some h ->
  h message kwargs = (t, Ok tt) ->
  process interpreter_gives call_other message kwargs = (t, Ok tt).
Proof.
  intros Hh Hrun. rewrite (process_handler _ _ _ Hh), Hrun. reflexivity.
Qed.

(** A failure of a handler other than [AttributeError] leaves [process]
    as it is, after the sink calls already made. *)
Lemma process_handler_raises message kwargs h t e :
  find_handler (mf_name message) handlers = Some h ->
  h message kwargs = (t, Raise e) ->
  e <> AttributeError ->
  process interpreter_gives call_other message kwargs = (t, Raise e).
Proof.
  intros Hh Hrun He. rewrite (process_handler _ _ _ Hh), Hrun.
  destruct e; try reflexivity. now contradiction He.
Qed.

(** Every name of the table finds its own handler. *)
Lemma handlers_registered :
  Forall (fun entry => find_handler (fst entry) handlers = Some (snd entry)) handlers.
Proof.
  repeat constructor.
Qed.

(** The lookup fails for the names that are neither a handler's nor
    another attribute's of the class nor the interpreter's. *)
Lemma getattr_self_None name :
  getattr_self interpreter_gives name = None <->
  find_handler name handlers = None /\
  existsb (String.eqb name) other_attributes = false /\
  interpreter_gives name = false.
Proof.
  unfold getattr_self.
  destruct (find_handler name handlers); [split; [discriminate | intros [H _]; discriminate]|].
  destruct (String.eqb name "_eval_metric_condition") eqn:E1.
  { apply String.eqb_eq in E1. subst name.
    split; [discriminate | intros (_ & H & _); discriminate]. }
  destruct (String.eqb name "_extract_label_value") eqn:E2.
  { apply String.eqb_eq in E2. subst name.
    split; [discriminate | intros (_ & H & _); discriminate]. }
  destruct (existsb (String.eqb name) other_attributes); simpl.
  - split; [discriminate | intros (_ & H & _); discriminate].
  - destruct (interpreter_gives name).
    + split; [discriminate | intros (_ & _ & H); discriminate].
    + tauto.
Qed.

(** A name with two underscores that the interpreter does not give is
    missing like any other: the lookup fails and the debug line is all. *)
Lemma process_name_interpreter_lacks samples kwargs :
  interpreter_gives "__nonexistent" = false ->
  process interpreter_gives call_other (mkFamily "__nonexistent" samples) kwargs =
  ([ELogDebug "Unable to handle metric: __nonexistent"], Ok tt).
Proof.
  intros Hlacks.
  assert (Hnone : getattr_self interpreter_gives "__nonexistent" = None).
  { apply getattr_self_None. repeat split; try reflexivity. exact Hlacks. }
  unfold process. cbn [mf_name]. rewrite Hnone. reflexivity.
Qed.

(** A family named as the label helper: the helper is found and called
    with the family for its [name]; unless the keywords supply [labels] the
    call is a [TypeError], which [process] lets out. *)
Lemma process_extract_label_value_name samples kwargs :
  dict_get kwargs "labels" = None ->
  process interpreter_gives call_other (mkFamily "_extract_label_value" samples) kwargs =
  ([], Raise TypeError).
Proof.
  intros Hlabels. unfold process, call. cbn [mf_name].
  change (getattr_self interpreter_gives "_extract_label_value")
    with (Some ExtractLabelValue).
  unfold call_extract_label_value. rewrite Hlabels.
  now destruct (forallb _ kwargs).
Qed.

(** A family named as the condition helper: the helper is found and
    called; a keyword is a [TypeError], which [process] lets out, and
    without keywords the body fails on [metric.gauge], which [process] takes
    for a missing handler. *)
Lemma process_eval_metric_condition_name samples kwargs :
  process interpreter_gives call_other (mkFamily "_eval_metric_condition" samples) kwargs =
  match kwargs with
  | [] => ([ELogDebug "Unable to handle metric: _eval_metric_condition"], Ok tt)
  | _ :: _ => ([], Raise TypeError)
  end.
Proof.
  unfold process, call. cbn [mf_name].
  change (getattr_self interpreter_gives "_eval_metric_condition")
    with (Some EvalMetricCondition).
  now destruct kwargs.
Qed.

(** An [AttributeError] out of a handler is taken for a failed lookup. *)
Lemma process_handler_AttributeError message kwargs h t :
  find_handler (mf_name message) handlers = Some h ->
  h message kwargs = (t, Raise AttributeError) ->
  process interpreter_gives call_other message kwargs =
  ((t ++ [ELogDebug ("Unable to handle metric: " ++ mf_name message)])%list, Ok tt).
Proof.
  intros Hh Hrun. rewrite (process_handler _ _ _ Hh), Hrun. reflexivity.
Qed.

(** Two failures of a handler that do leave [process]: [label[0]] on a
    sample without labels, after the gauge of the sample before it, and
    [in] on an allow-list that is a number. *)
Example process_lets_IndexError_out :
  process interpreter_gives call_other
    (mkFamily "kube_node_status_capacity_cpu_cores"
       [mkMetric [mkLabel "node" "nodeA"] 4%float; mkMetric [] 8%float]) [] =
  ([EGauge "kubernetes.node.cpu_capacity" 4%float ["host:nodeA"]], Raise IndexError).
Proof. reflexivity. Qed.

Example process_lets_TypeError_out :
  process interpreter_gives call_other
    (mkFamily "kube_pod_status_ready" [mkMetric [mkLabel "pod" "pod-a"] 1%float])
    [("instance", VDict [("status_ready_for_pods", VInt 3)])] =
  ([], Raise TypeError).
Proof. reflexivity. Qed.

(** C1 (the code at the failing input).  With [instance=None] the
    pod-readiness handler fails inside its body, on [None.get], with an
    [AttributeError]; [process] does not let it out: it logs the line
    meant for a missing handler and returns. *)
Theorem process_swallows_AttributeError_of_handler (samples : list Metric) :
  let message := mkFamily "kube_pod_status_ready" samples in
  let kwargs := [("instance", VNone)] in
  getattr_self interpreter_gives (mf_name message) =
    Some (Handler kube_pod_status_ready) /\
  kube_pod_status_ready message kwargs = ([], Raise AttributeError) /\
  process interpreter_gives call_other message kwargs =
    ([ELogDebug "Unable to handle metric: kube_pod_status_ready"], Ok tt).
Proof.
  cbv zeta. repeat split; reflexivity.
Qed.

(** C5 (amended).  A family whose name is no attribute of the processor
    instance at all (no handler, none of the other methods and fields of
    the class, no name the interpreter gives): [process] returns normally,
    having written one debug line that names the family and called neither
    the gauge nor the service-check sink, whatever the keyword arguments. *)
Theorem process_unmatched_family (message : MetricFamily) (kwargs : Kwargs) :
  find_handler (mf_name message) handlers = None ->
  existsb (String.eqb (mf_name message)) other_attributes = false ->
  interpreter_gives (mf_name message) = false ->
  process interpreter_gives call_other message kwargs =
    ([ELogDebug ("Unable to handle metric: " ++ mf_name message)], Ok tt) /\
  outcome (process interpreter_gives call_other message kwargs) = Ok tt /\
  emissions (process interpreter_gives call_other message kwargs) = [].
Proof.
  intros Hhandler Hclass Hinterp.
  assert (Hnone : getattr_self interpreter_gives (mf_name message) = None).
  { apply getattr_self_None. repeat split; assumption. }
  assert (Hrun : process interpreter_gives call_other message kwargs =
    ([ELogDebug ("Unable to handle metric: " ++ mf_name message)], Ok tt)).
  { unfold process. rewrite Hnone. reflexivity. }
  rewrite Hrun. repeat split; reflexivity.
Qed.

End DispatcherProperties.

(** C5 (as stated, refuted).  "_extract_label_value" is the name of no
    handler, yet a family of that name makes [process] raise: the lookup
    finds the helper method, the call does not fit its parameters, and the
    [TypeError] is not what the [except] clause catches.  So it is with the
    keywords the check passes and with none. *)
Lemma process_unmatched_family_counterexample :
  find_handler "_extract_label_value" handlers = None /\
  process dunder_names (fun _ _ _ => raise RuntimeError)
    (mkFamily "_extract_label_value" [sample_nodeA_true])
    [("instance", VDict [])] = ([], Raise TypeError) /\
  process dunder_names (fun _ _ _ => raise RuntimeError)
    (mkFamily "_extract_label_value" []) [] = ([], Raise TypeError).
Proof.
  repeat split; reflexivity.
Qed.

Lemma process_unmatched_family_witness :
  process dunder_names (fun _ _ _ => raise TypeError)
    (mkFamily "kube_pod_info" [mkMetric [mkLabel "pod" "p"] 1%float])
    [("instance", VDict [])] =
    ([ELogDebug "Unable to handle metric: kube_pod_info"], Ok tt).
Proof.
  refine (proj1 (process_unmatched_family dunder_names (fun _ _ _ => raise TypeError)
           (mkFamily "kube_pod_info" [mkMetric [mkLabel "pod" "p"] 1%float])
           [("instance", VDict [])] _ _ _)); reflexivity.
Defined.

(** ** The helpers *)

Lemma extract_label_value_None name labels :
  _extract_label_value name labels = None <-> has_label name labels = false.
Proof.
  induction labels as [|l ls IH]; simpl.
  - tauto.
  - destruct (String.eqb (l_name l) name); simpl; [split; discriminate | exact IH].
Qed.

(** First match wins: the labels before it do not carry the name. *)
Lemma extract_label_value_first name pre label post :
  has_label name pre = false ->
  l_name label = name ->
  _extract_label_value name (pre ++ label :: post)%list = Some (l_value label).
Proof.
  intros Hpre Hname.
  induction pre as [|l ls IH]; simpl in *.
  - rewrite Hname, String.eqb_refl. reflexivity.
  - destruct (String.eqb (l_name l) name); simpl in *; [discriminate | now apply IH].
Qed.

Lemma extract_label_value_Some name labels v :
  _extract_label_value name labels = Some v ->
  exists pre label post,
    labels = (pre ++ label :: post)%list /\ has_label name pre = false /\
    l_name label = name /\ l_value label = v.
Proof.
  induction labels as [|l ls IH]; simpl; [discriminate|].
  destruct (String.eqb (l_name l) name) eqn:E.
  - intros [= <-]. apply String.eqb_eq in E.
    exists [], l, ls. repeat split; assumption.
  - intros H. destruct (IH H) as (pre & lab & post & -> & Hpre & Hn & Hv).
    exists (l :: pre), lab, post. simpl. rewrite E. repeat split; assumption.
Qed.

(** The condition helper in terms of the label lookup. *)
Lemma eval_metric_condition_extract metric :
  _eval_metric_condition metric =
  match _extract_label_value "condition" (m_label metric) with
  | Some c => (Some c, Some (py_bool (m_gauge_value metric)))
  | None => (None, None)
  end.
Proof.
  unfold _eval_metric_condition. cbv zeta.
  induction (m_label metric) as [|l ls IH]; simpl.
  - reflexivity.
  - destruct (String.eqb (l_name l) "condition"); [reflexivity | exact IH].
Qed.

(** C2 (as stated, refuted).  The sample has no label named "condition" and
    its gauge is true, yet the second component returned is not that truth
    value: both components are [None]. *)
Lemma eval_metric_condition_absent_counterexample :
  has_label "condition" (m_label sample_without_condition) = false /\
  py_bool (m_gauge_value sample_without_condition) = true /\
  _eval_metric_condition sample_without_condition = (None, None) /\
  _eval_metric_condition sample_without_condition <>
    (None, Some (py_bool (m_gauge_value sample_without_condition))).
Proof.
  repeat split; try reflexivity. discriminate.
Qed.

(** C2 (amended).  For a sample with no label named "condition" the
    condition helper returns [(None, None)]: the second component is absent
    as well and carries nothing of the gauge. *)
Theorem eval_metric_condition_absent (metric : Metric) :
  has_label "condition" (m_label metric) = false ->
  _eval_metric_condition metric = (None, None).
Proof.
  intros Hno. rewrite eval_metric_condition_extract.
  apply extract_label_value_None in Hno. rewrite Hno. reflexivity.
Qed.

Lemma eval_metric_condition_absent_witness :
  _eval_metric_condition sample_without_condition = (None, None).
Proof.
  apply (eval_metric_condition_absent sample_without_condition). reflexivity.
Defined.

(** ** Gauge families *)

(** C3.  For the cpu-capacity family every sample yields exactly one gauge
    named "kubernetes.node.cpu_capacity" with the sample's gauge value and
    the single tag "host:" followed by the value of the sample's first
    label, whatever the name of that label; the gauges come in the order of
    the samples.  A sample is given as its first label, the labels after it
    and its gauge value. *)
Theorem cpu_capacity_host_is_first_label
    (family_name : string) (samples : list (LabelPair * list LabelPair * float))
    (kwargs : Kwargs) :
  kube_node_status_capacity_cpu_cores
    (mkFamily family_name
       (map (fun '(first, rest, v) => mkMetric (first :: rest) v) samples)) kwargs =
  (map (fun '(first, rest, v) =>
          EGauge "kubernetes.node.cpu_capacity" v ["host:" ++ l_value first]) samples,
   Ok tt).
Proof.
  unfold kube_node_status_capacity_cpu_cores. simpl mf_metric. cbv zeta.
  rewrite for_each_over_map. apply for_each_map.
  intros [[first rest] v]. reflexivity.
Qed.

(** A sample without labels has no first label: the lookup [label[0]]
    raises and ends the loop, the gauges of the samples before it stand. *)
Lemma cpu_capacity_no_label_raises family_name before v after kwargs :
  Forall (fun metric => m_label metric <> []) before ->
  exists t,
    kube_node_status_capacity_cpu_cores
      (mkFamily family_name (before ++ mkMetric [] v :: after)%list) kwargs =
    (t, Raise IndexError) /\ List.length t = List.length before.
Proof.
  unfold kube_node_status_capacity_cpu_cores. simpl mf_metric. cbv zeta.
  induction 1 as [|m ms Hm _ IH].
  - eexists. split; reflexivity.
  - destruct IH as (t & IH & Hlen).
    cbn [app for_each]. rewrite IH.
    unfold label_0. destruct (m_label m) as [|l ls]; [congruence|].
    cbn. eexists. split; [reflexivity|]. cbn. now rewrite Hlen.
Qed.

(** C6.  The five node families other than cpu-capacity emit, for every
    sample, one gauge whose single tag is "host:" followed by the value of
    the first label literally named "node"; a sample without such a label
    gets the tag "host:None". *)
Theorem node_families_host_is_node_label :
  gauges_by_node_label kube_node_status_capacity_memory_bytes
    "kubernetes.node.memory_capacity" /\
  gauges_by_node_label kube_node_status_capacity_pods
    "kubernetes.node.pods_capacity" /\
  gauges_by_node_label kube_node_status_allocateable_cpu_cores
    "kubernetes.node.cpu_allocatable" /\
  gauges_by_node_label kube_node_status_allocateable_memory_bytes
    "kubernetes.node.memory_allocatable" /\
  gauges_by_node_label kube_node_status_allocateable_pods
    "kubernetes.node.pods_allocatable" /\
  (forall pre label post v,
      has_label "node" pre = false -> l_name label = "node" ->
      node_host_tag (mkMetric (pre ++ label :: post)%list v) = "host:" ++ l_value label) /\
  (forall labels v,
      has_label "node" labels = false ->
      node_host_tag (mkMetric labels v) = "host:None").
Proof.
  repeat split;
    try (intros message kwargs; apply for_each_map; intros metric; reflexivity).
  - intros pre label post v Hpre Hname. unfold node_host_tag. simpl.
    rewrite (extract_label_value_first "node" pre label post Hpre Hname). reflexivity.
  - intros labels v Hno. unfold node_host_tag. simpl.
    apply extract_label_value_None in Hno. rewrite Hno. reflexivity.
Qed.

Lemma node_families_host_is_node_label_witness :
  kube_node_status_capacity_pods
    (mkFamily "kube_node_status_capacity_pods"
       [ mkMetric [mkLabel "zone" "z1"; mkLabel "node" "nodeA"; mkLabel "node" "nodeB"] 110%float;
         mkMetric [mkLabel "zone" "z1"] 0%float ]) [] =
  ([ EGauge "kubernetes.node.pods_capacity" 110%float ["host:nodeA"];
     EGauge "kubernetes.node.pods_capacity" 0%float ["host:None"] ], Ok tt).
Proof.
  destruct node_families_host_is_node_label as (_ & Hpods & _ & _ & _ & Hfirst & Hnone).
  rewrite Hpods. simpl map.
  rewrite (Hfirst [mkLabel "zone" "z1"] (mkLabel "node" "nodeA") [mkLabel "node" "nodeB"])
    by reflexivity.
  rewrite (Hnone [mkLabel "zone" "z1"]) by reflexivity.
  reflexivity.
Defined.

(** C7.  The four deployment families emit, for every sample, exactly one
    gauge with the sample's gauge value whose tags are the sample's labels
    rendered name:value, one tag per label and in the order of the labels. *)
Theorem deployment_families_tag_every_label :
  gauges_by_all_labels kube_deployment_status_replicas_available
    "kubernetes.deployment.replicas_available" /\
  gauges_by_all_labels kube_deployment_status_replicas_unavailable
    "kubernetes.deployment.replicas_unavailable" /\
  gauges_by_all_labels kube_deployment_status_replicas_updated
    "kubernetes.deployment.replicas_updated" /\
  gauges_by_all_labels kube_deployment_spec_replicas
    "kubernetes.deployment.replicas_desired".
Proof.
  repeat split; intros message kwargs; apply for_each_map; intros metric; reflexivity.
Qed.

(** ** Condition families *)

Lemma for_each_ext {A} (f g : A -> M unit) (xs : list A) :
  (forall x, f x = g x) -> for_each xs f = for_each xs g.
Proof.
  intros H. induction xs as [|x xs IH]; simpl; [reflexivity | now rewrite H, IH].
Qed.

Lemma kube_node_status_ready_run message kwargs :
  kube_node_status_ready message kwargs =
  (flat_map (condition_checks "kube_node_status_ready" OK CRITICAL UNKNOWN)
     (mf_metric message), Ok tt).
Proof.
  unfold kube_node_status_ready. cbv zeta.
  apply for_each_flat_map. intros metric _.
  rewrite eval_metric_condition_extract. unfold condition_checks, ready_elif_chain.
  destruct (_extract_label_value "condition" (m_label metric)) as [c|]; [|reflexivity].
  unfold eq_and. destruct (py_bool (m_gauge_value metric));
    rewrite ?andb_true_r, ?andb_false_r; [|reflexivity].
  destruct (String.eqb c "true"); [reflexivity|].
  destruct (String.eqb c "false"); [reflexivity|].
  destruct (String.eqb c "unknown"); reflexivity.
Qed.

Lemma kube_node_status_out_of_disk_run message kwargs :
  kube_node_status_out_of_disk message kwargs =
  (flat_map (condition_checks "kube_node_status_out_of_disk" CRITICAL OK UNKNOWN)
     (mf_metric message), Ok tt).
Proof.
  unfold kube_node_status_out_of_disk. cbv zeta.
  apply for_each_flat_map. intros metric _.
  rewrite eval_metric_condition_extract. unfold condition_checks.
  destruct (_extract_label_value "condition" (m_label metric)) as [c|]; [|reflexivity].
  unfold eq_and. destruct (py_bool (m_gauge_value metric));
    rewrite ?andb_true_r, ?andb_false_r; [|reflexivity].
  destruct (String.eqb c "true"); [reflexivity|].
  destruct (String.eqb c "false"); [reflexivity|].
  destruct (String.eqb c "unknown"); reflexivity.
Qed.

Lemma condition_mapping_of_run h check_name on_true on_false on_unknown :
  (forall message kwargs,
     h message kwargs =
     (flat_map (condition_checks check_name on_true on_false on_unknown)
        (mf_metric message), Ok tt)) ->
  condition_mapping h check_name on_true on_false on_unknown.
Proof.
  intros Hrun family_name kwargs. cbv zeta.
  assert (Hone : forall metric,
             h (mkFamily family_name [metric]) kwargs =
             (condition_checks check_name on_true on_false on_unknown metric, Ok tt)).
  { intros metric. rewrite Hrun. simpl. now rewrite app_nil_r. }
  repeat split.
  - intros metric Hc Ha. rewrite Hone. unfold condition_checks. now rewrite Hc, Ha.
  - intros metric Hc Ha. rewrite Hone. unfold condition_checks. now rewrite Hc, Ha.
  - intros metric Hc Ha. rewrite Hone. unfold condition_checks. now rewrite Hc, Ha.
  - intros metric c Hc Ht Hf Hu. rewrite Hone. unfold condition_checks. rewrite Hc.
    apply String.eqb_neq in Ht, Hf, Hu. rewrite Ht, Hf, Hu.
    now destruct (py_bool (m_gauge_value metric)).
  - intros metric Hno. rewrite Hone. unfold condition_checks.
    apply extract_label_value_None in Hno. now rewrite Hno.
  - intros metric Ha. rewrite Hone. unfold condition_checks. rewrite Ha.
    now destruct (_extract_label_value "condition" (m_label metric)).
  - intros samples. rewrite Hrun. simpl mf_metric. f_equal.
    apply flat_map_ext. intros metric. now rewrite Hone.
Qed.

(** C4.  Node readiness maps the asserted condition "true" to OK, "false"
    to CRITICAL and "unknown" to UNKNOWN; node out-of-disk maps "true" to
    CRITICAL, "false" to OK and "unknown" to UNKNOWN.  A sample whose gauge
    is true and whose condition is one of the three yields exactly one
    service check, of the family's name, with the single tag "host:" and the
    node label's value; a sample with another condition, without a condition
    label or with a false gauge yields none; a family yields the checks of
    its samples in order. *)
Theorem node_condition_mappings :
  condition_mapping kube_node_status_ready "kube_node_status_ready"
    OK CRITICAL UNKNOWN /\
  condition_mapping kube_node_status_out_of_disk "kube_node_status_out_of_disk"
    CRITICAL OK UNKNOWN.
Proof.
  split; apply condition_mapping_of_run.
  - exact kube_node_status_ready_run.
  - exact kube_node_status_out_of_disk_run.
Qed.

Lemma node_condition_mappings_witness :
  kube_node_status_ready (mkFamily "kube_node_status_ready" [sample_nodeA_true]) [] =
    ([EServiceCheck "kube_node_status_ready" OK ["host:nodeA"]], Ok tt) /\
  kube_node_status_out_of_disk
    (mkFamily "kube_node_status_out_of_disk" [sample_nodeA_true]) [] =
    ([EServiceCheck "kube_node_status_out_of_disk" CRITICAL ["host:nodeA"]], Ok tt).
Proof.
  destruct node_condition_mappings as [Hready Hdisk].
  split.
  - apply (proj1 (Hready "kube_node_status_ready" []) sample_nodeA_true); reflexivity.
  - apply (proj1 (Hdisk "kube_node_status_out_of_disk" []) sample_nodeA_true); reflexivity.
Defined.

(** ** Pod readiness *)

Lemma py_in_list_of_names (x : option string) (pods : list string) :
  existsb (py_eq x) (map VStr pods) =
  match x with
  | Some pod => existsb (String.eqb pod) pods
  | None => false
  end.
Proof.
  induction pods as [|p ps IH]; simpl.
  - now destruct x.
  - rewrite IH. now destruct x.
Qed.

(** The two branch shapes agree on every [(name, val)]. *)
Lemma ready_if_then_if_elif_eq check_name tags name val :
  ready_if_then_if_elif check_name tags name val =
  ready_elif_chain check_name tags name val.
Proof.
  unfold ready_if_then_if_elif, ready_elif_chain, eq_and.
  destruct name as [c|]; [|reflexivity].
  destruct val as [[|]|]; rewrite ?andb_true_r, ?andb_false_r; try reflexivity.
  string_case c "true"; [reflexivity|].
  destruct (String.eqb c "false"); [reflexivity|].
  destruct (String.eqb c "unknown"); reflexivity.
Qed.

Lemma kube_pod_status_ready_run message kwargs pods :
  pods_configured kwargs pods ->
  kube_pod_status_ready message kwargs =
  (flat_map (pod_checks pods) (mf_metric message), Ok tt).
Proof.
  intros (d & Hinst & Hpods).
  unfold kube_pod_status_ready, kwargs_get_instance. cbv zeta.
  rewrite Hinst. unfold py_get. rewrite Hpods. cbn [bind ret app].
  rewrite (for_each_flat_map (pod_checks pods)); [reflexivity|].
  intros metric _. unfold py_in. cbn [bind ret app].
  rewrite py_in_list_of_names. unfold pod_checks, pod_listed.
  destruct (_extract_label_value "pod" (m_label metric)) as [pod|] eqn:Epod;
    [|reflexivity].
  destruct (existsb (String.eqb pod) pods); [|reflexivity].
  cbn [negb]. rewrite eval_metric_condition_extract.
  unfold asserted_status, pod_tags. rewrite Epod.
  destruct (_extract_label_value "condition" (m_label metric)) as [c|];
    cbn beta iota; rewrite ready_if_then_if_elif_eq;
    unfold ready_elif_chain, eq_and;
    [|now destruct (py_bool (m_gauge_value metric))].
  destruct (py_bool (m_gauge_value metric));
    rewrite ?andb_true_r, ?andb_false_r; [|reflexivity].
  destruct (String.eqb c "true"); [reflexivity|].
  destruct (String.eqb c "false"); [reflexivity|].
  destruct (String.eqb c "unknown"); reflexivity.
Qed.

Lemma flat_map_pod_checks_filter pods samples :
  flat_map (pod_checks pods) samples =
  flat_map (pod_checks pods)
    (filter (fun metric => pod_listed pods metric && is_asserted metric) samples).
Proof.
  induction samples as [|m ms IH]; simpl; [reflexivity|].
  unfold pod_checks at 1, is_asserted.
  destruct (pod_listed pods m) eqn:El; simpl; [|exact IH].
  destruct (asserted_status m) as [st|] eqn:Ea; simpl; [|exact IH].
  unfold pod_checks at 2. rewrite El, Ea. simpl. now rewrite IH.
Qed.

Lemma length_flat_map_pod_checks_filter pods samples :
  List.length (flat_map (pod_checks pods) samples) =
  List.length (filter (fun metric => pod_listed pods metric && is_asserted metric) samples).
Proof.
  induction samples as [|m ms IH]; simpl; [reflexivity|].
  rewrite length_app, IH. unfold pod_checks, is_asserted.
  destruct (pod_listed pods m); simpl; [|reflexivity].
  destruct (asserted_status m); reflexivity.
Qed.

(** C8.  With the allow-list configured as a list of pod names, the
    pod-readiness handler returns having issued, in the order of the
    samples, one service check "kube_pod_status_ready" for each sample whose
    "pod" label value is in the list and whose condition is asserted, and
    nothing for any other sample; the check carries the status of the
    asserted condition and the tags "namespace:<namespace label value>" and
    "pod:<pod name>". *)
Theorem pod_ready_checks_listed_asserted_samples
    (message : MetricFamily) (kwargs : Kwargs) (pods : list string) :
  pods_configured kwargs pods ->
  let selected :=
    filter (fun metric => pod_listed pods metric && is_asserted metric)
      (mf_metric message) in
  outcome (kube_pod_status_ready message kwargs) = Ok tt /\
  List.length (trace (kube_pod_status_ready message kwargs)) = List.length selected /\
  Forall2 (fun metric e =>
             exists st pod,
               asserted_status metric = Some st /\
               _extract_label_value "pod" (m_label metric) = Some pod /\
               In pod pods /\
               e = EServiceCheck "kube_pod_status_ready" st
                     [ "namespace:" ++
                         py_format (_extract_label_value "namespace" (m_label metric));
                       "pod:" ++ pod ])
    selected (trace (kube_pod_status_ready message kwargs)).
Proof.
  intros Hconf. cbv zeta.
  rewrite (kube_pod_status_ready_run message kwargs pods Hconf).
  unfold outcome, trace. cbn [fst snd].
  split; [reflexivity|]. split; [apply length_flat_map_pod_checks_filter|].
  rewrite flat_map_pod_checks_filter.
  induction (mf_metric message) as [|m ms IH]; simpl; [constructor|].
  destruct (pod_listed pods m) eqn:El; simpl; [|exact IH].
  unfold is_asserted. destruct (asserted_status m) as [st|] eqn:Ea; simpl; [|exact IH].
  unfold pod_checks at 1. rewrite El, Ea. simpl.
  constructor; [|exact IH].
  unfold pod_listed in El.
  destruct (_extract_label_value "pod" (m_label m)) as [pod|] eqn:Epod; [|discriminate].
  exists st, pod.
  split; [exact Ea|]. split; [reflexivity|]. split.
  - apply existsb_exists in El. destruct El as (p & Hin & Heq).
    apply String.eqb_eq in Heq. now subst.
  - unfold pod_tags. now rewrite Epod.
Qed.

Lemma pod_ready_checks_listed_asserted_samples_witness :
  pods_configured kwargs_pod_a ["pod-a"] /\
  List.length
    (trace (kube_pod_status_ready
              (mkFamily "kube_pod_status_ready" [sample_pod "pod-a"; sample_pod "pod-b"])
              kwargs_pod_a)) = 1%nat.
Proof.
  assert (Hconf : pods_configured kwargs_pod_a ["pod-a"]).
  { eexists. split; reflexivity. }
  split; [exact Hconf|].
  exact (proj1 (proj2 (pod_ready_checks_listed_asserted_samples
                         (mkFamily "kube_pod_status_ready"
                            [sample_pod "pod-a"; sample_pod "pod-b"])
                         kwargs_pod_a ["pod-a"] Hconf))).
Defined.

Example pod_ready_allow_list_example :
  kube_pod_status_ready
    (mkFamily "kube_pod_status_ready" [sample_pod "pod-a"; sample_pod "pod-b"])
    kwargs_pod_a =
  ([EServiceCheck "kube_pod_status_ready" OK ["namespace:default"; "pod:pod-a"]], Ok tt).
Proof. reflexivity. Qed.

(** C9.  When [status_ready_for_pods] is not configured the pod-readiness
    handler writes its debug line and returns before it looks at any
    sample: for every family it calls neither the gauge nor the
    service-check sink, and so does [process] for the family of that
    name. *)
Theorem pod_ready_without_allow_list (message : MetricFamily) (kwargs : Kwargs) :
  pods_not_configured kwargs ->
  kube_pod_status_ready message kwargs = ([ELogDebug no_pods_configured_line], Ok tt) /\
  emissions (kube_pod_status_ready message kwargs) = [] /\
  (forall interpreter_gives call_other samples,
     process interpreter_gives call_other (mkFamily "kube_pod_status_ready" samples) kwargs =
     ([ELogDebug no_pods_configured_line], Ok tt)).
Proof.
  intros Hnot.
  assert (Hrun : forall msg,
             kube_pod_status_ready msg kwargs =
             ([ELogDebug no_pods_configured_line], Ok tt)).
  { intros msg. unfold kube_pod_status_ready, kwargs_get_instance. cbv zeta.
    destruct Hnot as [Hinst | (d & Hinst & [Hkey | Hkey])];
      rewrite Hinst; unfold py_get; try rewrite Hkey; reflexivity. }
  split; [apply Hrun|]. split.
  - rewrite Hrun. reflexivity.
  - intros interpreter_gives call_other samples.
    apply (process_handler_returns interpreter_gives call_other _ kwargs
             kube_pod_status_ready);
      [reflexivity | apply Hrun].
Qed.

Lemma pod_ready_without_allow_list_witness :
  pods_not_configured [("instance", VDict [("kubelet_port", VInt 10255)])] /\
  kube_pod_status_ready
    (mkFamily "kube_pod_status_ready" [sample_pod "pod-a"; sample_pod "pod-b"])
    [("instance", VDict [("kubelet_port", VInt 10255)])] =
  ([ELogDebug no_pods_configured_line], Ok tt).
Proof.
  assert (Hnot : pods_not_configured [("instance", VDict [("kubelet_port", VInt 10255)])]).
  { right. eexists. split; [reflexivity | left; reflexivity]. }
  split; [exact Hnot|].
  exact (proj1 (pod_ready_without_allow_list
                  (mkFamily "kube_pod_status_ready" [sample_pod "pod-a"; sample_pod "pod-b"])
                  [("instance", VDict [("kubelet_port", VInt 10255)])] Hnot)).
Defined.

(** ** The two branch shapes *)

Lemma bind_ext {A B} (m : M A) (k1 k2 : A -> M B) :
  (forall a, k1 a = k2 a) -> bind m k1 = bind m k2.
Proof.
  intros H. destruct m as [t [a|e]]; simpl; [now rewrite H | reflexivity].
Qed.

Lemma trace_for_each_singleton {A} (body : A -> M unit) (x : A) :
  trace (for_each [x] body) = trace (body x).
Proof.
  unfold trace. simpl. destruct (body x) as [t [[]|e]]; simpl; [apply app_nil_r | reflexivity].
Qed.

Lemma trace_py_get v k : trace (py_get v k) = [].
Proof. now destruct v. Qed.

Lemma trace_py_in x c : trace (py_in x c) = [].
Proof. destruct c; try reflexivity; now destruct x. Qed.

Lemma trace_bind_silent {A B} (m : M A) (k : A -> M B) :
  trace m = [] ->
  trace (bind m k) = match outcome m with Ok a => trace (k a) | Raise _ => [] end.
Proof.
  unfold trace, outcome. destruct m as [t [a|e]]; simpl; intros ->; [|reflexivity].
  now destruct (k a).
Qed.

Lemma ready_elif_chain_at_most_one check_name tags name val :
  (List.length (trace (ready_elif_chain check_name tags name val)) <= 1)%nat.
Proof.
  unfold ready_elif_chain.
  destruct (eq_and name "true" val); [simpl; lia|].
  destruct (eq_and name "false" val); [simpl; lia|].
  destruct (eq_and name "unknown" val); simpl; lia.
Qed.

Lemma pod_body_elif_at_most_one configured_pods metric :
  (List.length (trace (pod_body_elif configured_pods metric)) <= 1)%nat.
Proof.
  unfold pod_body_elif. cbv zeta.
  rewrite trace_bind_silent by apply trace_py_in.
  destruct (outcome (py_in _ configured_pods)) as [[|]|e]; cbn [negb]; try (simpl; lia).
  destruct (_eval_metric_condition metric) as [name val].
  apply ready_elif_chain_at_most_one.
Qed.

Lemma kube_pod_status_ready_elif_eq message kwargs :
  kube_pod_status_ready message kwargs = kube_pod_status_ready_elif message kwargs.
Proof.
  unfold kube_pod_status_ready, kube_pod_status_ready_elif. cbv zeta.
  apply bind_ext. intros configured_pods.
  assert (Hloop :
    for_each (mf_metric message) (fun metric =>
      listed <- py_in (_extract_label_value "pod" (m_label metric)) configured_pods ;;
      if negb listed then ret tt
      else
        let '(name, val) := _eval_metric_condition metric in
        ready_if_then_if_elif "kube_pod_status_ready"
          [ "namespace:" ++ py_format (_extract_label_value "namespace" (m_label metric));
            "pod:" ++ py_format (_extract_label_value "pod" (m_label metric)) ]
          name val) =
    for_each (mf_metric message) (pod_body_elif configured_pods)).
  { apply for_each_ext. intros metric. unfold pod_body_elif. cbv zeta.
    apply bind_ext. intros [|]; [|reflexivity].
    cbn [negb]. destruct (_eval_metric_condition metric) as [name val].
    apply ready_if_then_if_elif_eq. }
  destruct configured_pods; try reflexivity; exact Hloop.
Qed.

Lemma pod_sample_at_most_one family_name metric kwargs :
  (List.length (emissions (kube_pod_status_ready (mkFamily family_name [metric]) kwargs))
   <= 1)%nat.
Proof.
  rewrite kube_pod_status_ready_elif_eq.
  unfold kube_pod_status_ready_elif, emissions.
  rewrite trace_bind_silent by apply trace_py_get.
  destruct (outcome (py_get _ _)) as [configured_pods|e]; [|simpl; lia].
  etransitivity; [apply filter_length_le|].
  simpl mf_metric.
  destruct configured_pods;
    try (rewrite trace_for_each_singleton; apply pod_body_elif_at_most_one).
  simpl. lia.
Qed.

(** C10.  The branches of the pod-readiness handler ([if], then [if] ...
    [elif]) and the [elif] chain of the node-readiness handler make the same
    sink calls and return the same on every extracted pair: a pair that
    takes the "true" branch cannot take the "false" branch, its name being
    one value.  So the handler is the same function as its variant with the
    [elif] chain, and it issues at most one service check per sample. *)
Theorem pod_branches_equal_elif_chain :
  (forall check_name tags name val,
     ready_if_then_if_elif check_name tags name val =
     ready_elif_chain check_name tags name val) /\
  (forall name val, eq_and name "true" val = true -> eq_and name "false" val = false) /\
  (forall message kwargs,
     kube_pod_status_ready message kwargs = kube_pod_status_ready_elif message kwargs) /\
  (forall check_name tags name val,
     (List.length (trace (ready_if_then_if_elif check_name tags name val)) <= 1)%nat) /\
  (forall family_name metric kwargs,
     (List.length
        (emissions (kube_pod_status_ready (mkFamily family_name [metric]) kwargs)) <= 1)%nat).
Proof.
  split; [exact ready_if_then_if_elif_eq|].
  split.
  { intros [c|] val; simpl; [|discriminate].
    string_case c "true"; [reflexivity | discriminate]. }
  split; [exact kube_pod_status_ready_elif_eq|].
  split.
  { intros. rewrite ready_if_then_if_elif_eq. apply ready_elif_chain_at_most_one. }
  exact pod_sample_at_most_one.
Qed.

Lemma pod_branches_equal_elif_chain_witness :
  eq_and (Some "true") "false" (Some true) = false.
Proof.
  apply (proj1 (proj2 pod_branches_equal_elif_chain) (Some "true") (Some true)).
  reflexivity.
Defined.

(** * Further properties of the code *)

(** ** Sequencing and loops *)

Lemma bind_assoc {A B C} (m : M A) (k : A -> M B) (k' : B -> M C) :
  bind (bind m k) k' = bind m (fun a => bind (k a) k').
Proof.
  destruct m as [t [a|e]]; simpl; [|reflexivity].
  destruct (k a) as [t1 [b|e1]]; simpl; [|reflexivity].
  destruct (k' b) as [t2 r]. now rewrite app_assoc.
Qed.

Lemma bind_ret_l {A B} (a : A) (k : A -> M B) : bind (ret a) k = k a.
Proof.
  simpl. now destruct (k a).
Qed.

(** A loop over a concatenation is the loop over the first part followed,
    unless that one raised, by the loop over the second. *)
Lemma for_each_app {A} (body : A -> M unit) (xs ys : list A) :
  for_each (xs ++ ys)%list body = (for_each xs body ;;; for_each ys body).
Proof.
  induction xs as [|x xs IH]; cbn [app for_each].
  - now rewrite bind_ret_l.
  - rewrite IH. now rewrite bind_assoc.
Qed.

Lemma trace_bind_Forall {A B} (P : event -> Prop) (m : M A) (k : A -> M B) :
  Forall P (trace m) -> (forall a, Forall P (trace (k a))) ->
  Forall P (trace (bind m k)).
Proof.
  unfold trace. destruct m as [t [a|e]]; simpl; intros Hm Hk; [|exact Hm].
  specialize (Hk a). destruct (k a) as [t' r]. simpl in *.
  apply Forall_app. now split.
Qed.

Lemma trace_for_each_Forall {A} (P : event -> Prop) (body : A -> M unit) (xs : list A) :
  (forall x, Forall P (trace (body x))) ->
  Forall P (trace (for_each xs body)).
Proof.
  intros Hbody. induction xs as [|x xs IH]; cbn [for_each].
  - constructor.
  - apply trace_bind_Forall; [apply Hbody | intros _; exact IH].
Qed.

Lemma trace_bind_length {A B} (m : M A) (k : A -> M B) (n : nat) :
  (forall a, List.length (trace (k a)) <= n)%nat ->
  (List.length (trace (bind m k)) <= List.length (trace m) + n)%nat.
Proof.
  unfold trace. destruct m as [t [a|e]]; simpl; intros Hk; [|lia].
  specialize (Hk a). destruct (k a) as [t' r]. simpl in *.
  rewrite length_app. lia.
Qed.

Lemma trace_for_each_length {A} (body : A -> M unit) (xs : list A) :
  (forall x, List.length (trace (body x)) <= 1)%nat ->
  (List.length (trace (for_each xs body)) <= List.length xs)%nat.
Proof.
  intros Hbody. induction xs as [|x xs IH]; cbn [for_each].
  - simpl. lia.
  - etransitivity; [apply (trace_bind_length _ _ (List.length xs)); intros _; exact IH|].
    specialize (Hbody x). simpl. lia.
Qed.

(** ** The label lookup *)

(** X1.  [_extract_label_value] answers with the value of the first label
    that carries the name, whatever follows it, and with [None] exactly
    when no label carries the name. *)
Theorem extract_label_value_first_match (name : string) (labels : list LabelPair) :
  (_extract_label_value name labels = None <-> has_label name labels = false) /\
  (forall v,
     _extract_label_value name labels = Some v <->
     exists pre label post,
       labels = (pre ++ label :: post)%list /\ has_label name pre = false /\
       l_name label = name /\ l_value label = v).
Proof.
  split; [apply extract_label_value_None|].
  intros v. split; [apply extract_label_value_Some|].
  intros (pre & label & post & -> & Hpre & Hname & <-).
  now apply extract_label_value_first.
Qed.

(** X2.  The two components [_eval_metric_condition] returns are absent
    together: the first is the value of the first label named "condition",
    and when there is one the second is the truth value of the gauge. *)
Theorem eval_metric_condition_components (metric : Metric) :
  fst (_eval_metric_condition metric) =
    _extract_label_value "condition" (m_label metric) /\
  (fst (_eval_metric_condition metric) = None <->
   snd (_eval_metric_condition metric) = None) /\
  (has_label "condition" (m_label metric) = true ->
   snd (_eval_metric_condition metric) = Some (py_bool (m_gauge_value metric))).
Proof.
  rewrite eval_metric_condition_extract.
  destruct (_extract_label_value "condition" (m_label metric)) as [c|] eqn:E; simpl.
  - repeat split; try discriminate; reflexivity.
  - apply extract_label_value_None in E. rewrite E.
    repeat split; try discriminate; reflexivity.
Qed.

Lemma eval_metric_condition_components_witness :
  snd (_eval_metric_condition sample_nodeA_true) = Some true.
Proof.
  apply (proj2 (proj2 (eval_metric_condition_components sample_nodeA_true))).
  reflexivity.
Defined.

(** ** The dispatcher around a handler *)

(** X3.  For a family whose name is a handler's, [process] makes exactly
    the gauge and service-check calls the handler makes, also when the
    handler fails; and [process] raises exactly when the handler raises
    something other than [AttributeError], the same exception. *)
Theorem process_keeps_handler_emissions
    (interpreter_gives : string -> bool)
    (call_other : string -> MetricFamily -> Kwargs -> M unit)
    (message : MetricFamily) (kwargs : Kwargs) (h : handler) :
  find_handler (mf_name message) handlers = Some h ->
  emissions (process interpreter_gives call_other message kwargs) = emissions (h message kwargs) /\
  (forall e,
     outcome (process interpreter_gives call_other message kwargs) = Raise e <->
     outcome (h message kwargs) = Raise e /\ e <> AttributeError).
Proof.
  intros Hh. rewrite (process_handler interpreter_gives call_other _ _ _ Hh).
  unfold emissions, trace, outcome.
  destruct (h message kwargs) as [t [[]|e']]; simpl.
  - split; [reflexivity|]. intros e. split; [discriminate | intros [H _]; discriminate].
  - destruct e'; simpl.
    + split.
      * rewrite filter_app. simpl. apply app_nil_r.
      * intros e. split; [discriminate | intros [[= <-] H]; now contradiction H].
    + split; [reflexivity|]. intros e.
      split; [intros [= <-]; split; [reflexivity | discriminate] | now intros [H _]].
    + split; [reflexivity|]. intros e.
      split; [intros [= <-]; split; [reflexivity | discriminate] | now intros [H _]].
    + split; [reflexivity|]. intros e.
      split; [intros [= <-]; split; [reflexivity | discriminate] | now intros [H _]].
Qed.

Lemma process_keeps_handler_emissions_witness :
  emissions
    (process dunder_names (fun _ _ _ => raise TypeError)
       (mkFamily "kube_node_status_capacity_cpu_cores"
          [mkMetric [mkLabel "node" "nodeA"] 4%float; mkMetric [] 8%float]) []) =
  emissions
    (kube_node_status_capacity_cpu_cores
       (mkFamily "kube_node_status_capacity_cpu_cores"
          [mkMetric [mkLabel "node" "nodeA"] 4%float; mkMetric [] 8%float]) []).
Proof.
  refine (proj1 (process_keeps_handler_emissions dunder_names (fun _ _ _ => raise TypeError)
                   (mkFamily "kube_node_status_capacity_cpu_cores"
                      [mkMetric [mkLabel "node" "nodeA"] 4%float; mkMetric [] 8%float]) []
                   kube_node_status_capacity_cpu_cores _)).
  reflexivity.
Defined.

(** ** Gauge families *)

(** X4.  In the cpu-capacity family a sample without labels stops the
    handler with [IndexError]: the gauges of the samples before it have
    been published, in order, and no sample after it is looked at. *)
Theorem cpu_capacity_stops_at_unlabelled_sample
    (family_name : string) (before : list (LabelPair * list LabelPair * float))
    (v : float) (after : list Metric) (kwargs : Kwargs) :
  kube_node_status_capacity_cpu_cores
    (mkFamily family_name
       (map labelled_sample before ++ mkMetric [] v :: after)%list) kwargs =
  (map (fun '(first, rest, v') =>
          EGauge "kubernetes.node.cpu_capacity" v' ["host:" ++ l_value first]) before,
   Raise IndexError).
Proof.
  unfold kube_node_status_capacity_cpu_cores. simpl mf_metric. cbv zeta.
  rewrite for_each_app, for_each_over_map.
  rewrite (for_each_map
             (fun '(first, rest, v') =>
                EGauge "kubernetes.node.cpu_capacity" v' ["host:" ++ l_value first]))
    by (intros [[first rest] v']; reflexivity).
  simpl. now rewrite app_nil_r.
Qed.

(** ** How the handlers compose and what they never do *)

(** X5.  Each handler that is one loop treats a family as the sequence of
    its samples: running it on the samples [xs ++ ys] is running it on [xs]
    and then, unless that run raised, on [ys]. *)
Theorem loop_handlers_split :
  Forall (fun h : handler =>
            forall family_name xs ys kwargs,
              h (mkFamily family_name (xs ++ ys)%list) kwargs =
              (h (mkFamily family_name xs) kwargs ;;;
               h (mkFamily family_name ys) kwargs))
    loop_handlers.
Proof.
  repeat constructor; intros family_name xs ys kwargs; apply for_each_app.
Qed.

Lemma find_handler_In name table h :
  find_handler name table = Some h -> In (name, h) table.
Proof.
  induction table as [|[n h'] table IH]; simpl; [discriminate|].
  destruct (String.eqb n name) eqn:E.
  - intros [= ->]. apply String.eqb_eq in E. subst. now left.
  - intros H. right. now apply IH.
Qed.

Lemma outcome_for_each_Ok {A} (body : A -> M unit) (xs : list A) :
  (forall x, outcome (body x) = Ok tt) -> outcome (for_each xs body) = Ok tt.
Proof.
  intros Hbody. induction xs as [|x xs IH]; cbn [for_each]; [reflexivity|].
  specialize (Hbody x). unfold outcome in *.
  destruct (body x) as [t [[]|e]]; simpl in *; [|discriminate].
  now destruct (for_each xs body).
Qed.

Lemma ready_elif_chain_emits check_name tags name val :
  outcome (ready_elif_chain check_name tags name val) = Ok tt /\
  Forall (check_named check_name) (trace (ready_elif_chain check_name tags name val)).
Proof.
  unfold ready_elif_chain.
  destruct (eq_and name "true" val);
    [|destruct (eq_and name "false" val);
      [|destruct (eq_and name "unknown" val)]];
    (split; [reflexivity|]); repeat constructor;
    eexists; eexists; (split; [reflexivity|]); tauto.
Qed.

Lemma out_of_disk_body_emits tags name val :
  let m : M unit :=
    if eq_and name "true" val then
      service_check "kube_node_status_out_of_disk" CRITICAL tags
    else if eq_and name "false" val then
      service_check "kube_node_status_out_of_disk" OK tags
    else if eq_and name "unknown" val then
      service_check "kube_node_status_out_of_disk" UNKNOWN tags
    else ret tt in
  outcome m = Ok tt /\
  Forall (check_named "kube_node_status_out_of_disk") (trace m) /\
  (List.length (trace m) <= 1)%nat.
Proof.
  cbv zeta.
  destruct (eq_and name "true" val);
    [|destruct (eq_and name "false" val);
      [|destruct (eq_and name "unknown" val)]];
    (split; [reflexivity|]); (split; [|simpl; lia]); repeat constructor;
    eexists; eexists; (split; [reflexivity|]); tauto.
Qed.

Lemma check_named_is_emission check_name e : check_named check_name e -> is_emission e = true.
Proof. now intros (st & tags & -> & _). Qed.

Lemma gauge_named_is_emission metric_name e : gauge_named metric_name e -> is_emission e = true.
Proof. now intros (v & tags & ->). Qed.

(** The handlers other than cpu-capacity and pod-readiness return, and
    call nothing but the gauge and service-check sinks. *)
Lemma steady_handler_returns name h message kwargs :
  In (name, h) handlers ->
  name <> "kube_node_status_capacity_cpu_cores" ->
  name <> "kube_pod_status_ready" ->
  outcome (h message kwargs) = Ok tt /\
  Forall (fun e => is_emission e = true) (trace (h message kwargs)).
Proof.
  intros Hin Hcpu Hpod. simpl in Hin.
  repeat (destruct Hin as [[= <- <-] | Hin]);
    try contradiction; try (now contradiction Hcpu); try (now contradiction Hpod);
    try (split;
         [ apply outcome_for_each_Ok; intros metric; reflexivity
         | apply trace_for_each_Forall; intros metric; repeat constructor ]).
  - split.
    + apply outcome_for_each_Ok. intros metric.
      destruct (_eval_metric_condition metric) as [n v].
      apply ready_elif_chain_emits.
    + apply trace_for_each_Forall. intros metric.
      destruct (_eval_metric_condition metric) as [n v].
      eapply Forall_impl; [|apply ready_elif_chain_emits].
      intros e. apply check_named_is_emission.
  - split.
    + apply outcome_for_each_Ok. intros metric.
      destruct (_eval_metric_condition metric) as [n v].
      apply (out_of_disk_body_emits _ n v).
    + apply trace_for_each_Forall. intros metric.
      destruct (_eval_metric_condition metric) as [n v].
      eapply Forall_impl; [|apply (out_of_disk_body_emits _ n v)].
      intros e. apply check_named_is_emission.
Qed.

(** X6.  For every handler other than cpu-capacity and pod-readiness,
    [process] on a family of the handler's name cannot raise, whatever the
    samples and the keyword arguments: it returns after the handler's sink
    calls, which are gauges and service checks only, and writes no debug
    line. *)
Theorem process_steady_families
    (interpreter_gives : string -> bool)
    (call_other : string -> MetricFamily -> Kwargs -> M unit)
    (name : string) (h : handler) (samples : list Metric) (kwargs : Kwargs) :
  find_handler name handlers = Some h ->
  name <> "kube_node_status_capacity_cpu_cores" ->
  name <> "kube_pod_status_ready" ->
  process interpreter_gives call_other (mkFamily name samples) kwargs =
    (trace (h (mkFamily name samples) kwargs), Ok tt) /\
  Forall (fun e => is_emission e = true)
    (trace (process interpreter_gives call_other (mkFamily name samples) kwargs)).
Proof.
  intros Hh Hcpu Hpod.
  destruct (steady_handler_returns name h (mkFamily name samples) kwargs
              (find_handler_In _ _ _ Hh) Hcpu Hpod) as [Hok Hem].
  assert (Hrun : process interpreter_gives call_other (mkFamily name samples) kwargs =
                 (trace (h (mkFamily name samples) kwargs), Ok tt)).
  { apply (process_handler_returns interpreter_gives call_other _ kwargs h); [exact Hh|].
    unfold outcome, trace in *. destruct (h (mkFamily name samples) kwargs) as [t r].
    simpl in *. now subst r. }
  split; [exact Hrun|]. rewrite Hrun. exact Hem.
Qed.

Lemma process_steady_families_witness :
  process dunder_names (fun _ _ _ => raise TypeError)
    (mkFamily "kube_node_status_out_of_disk" [sample_nodeA_true; sample_without_condition])
    [("instance", VNone)] =
  ([EServiceCheck "kube_node_status_out_of_disk" CRITICAL ["host:nodeA"]], Ok tt).
Proof.
  refine (proj1 (process_steady_families dunder_names (fun _ _ _ => raise TypeError)
                   "kube_node_status_out_of_disk" kube_node_status_out_of_disk
                   [sample_nodeA_true; sample_without_condition]
                   [("instance", VNone)] _ _ _)).
  - reflexivity.
  - discriminate.
  - discriminate.
Defined.

(** X7.  A gauge handler calls no sink but the gauge sink, and only under
    its own metric name; for cpu-capacity also on the runs that end in
    [IndexError]. *)
Theorem gauge_handlers_publish_own_name :
  Forall (fun entry : handler * string =>
            forall message kwargs,
              Forall (gauge_named (snd entry)) (trace (fst entry message kwargs)))
    gauge_table.
Proof.
  repeat constructor; intros message kwargs; simpl fst; simpl snd;
    apply trace_for_each_Forall; intros metric;
    try (repeat constructor; eexists; eexists; reflexivity).
  unfold label_0. destruct (m_label metric) as [|l ls]; simpl.
  - constructor.
  - repeat constructor. eexists; eexists; reflexivity.
Qed.

(** X8.  A condition handler calls no sink but the service-check sink,
    under its own check name and with status OK, CRITICAL or UNKNOWN, never
    WARNING; the one exception is the debug line of the pod-readiness
    handler for a missing allow-list.  This holds for every family and all
    keyword arguments, also on the runs that raise. *)
Theorem check_handlers_issue_own_check :
  (forall message kwargs,
     Forall (check_named "kube_node_status_ready")
       (trace (kube_node_status_ready message kwargs))) /\
  (forall message kwargs,
     Forall (check_named "kube_node_status_out_of_disk")
       (trace (kube_node_status_out_of_disk message kwargs))) /\
  (forall message kwargs,
     Forall (fun e => check_named "kube_pod_status_ready" e \/
                      e = ELogDebug no_pods_configured_line)
       (trace (kube_pod_status_ready message kwargs))).
Proof.
  split; [|split]; intros message kwargs.
  - apply trace_for_each_Forall. intros metric.
    destruct (_eval_metric_condition metric) as [n v]. apply ready_elif_chain_emits.
  - apply trace_for_each_Forall. intros metric.
    destruct (_eval_metric_condition metric) as [n v].
    apply (out_of_disk_body_emits _ n v).
  - rewrite kube_pod_status_ready_elif_eq. unfold kube_pod_status_ready_elif.
    apply trace_bind_Forall; [rewrite trace_py_get; constructor|].
    intros configured_pods.
    assert (Hloop : Forall (fun e => check_named "kube_pod_status_ready" e \/
                                     e = ELogDebug no_pods_configured_line)
                      (trace (for_each (mf_metric message) (pod_body_elif configured_pods)))).
    { apply trace_for_each_Forall. intros metric. unfold pod_body_elif. cbv zeta.
      apply trace_bind_Forall; [rewrite trace_py_in; constructor|].
      intros [|]; cbn [negb]; [|constructor].
      destruct (_eval_metric_condition metric) as [n v].
      eapply Forall_impl; [|apply ready_elif_chain_emits]. intros e He. now left. }
    destruct configured_pods; try exact Hloop.
    constructor; [now right | constructor].
Qed.

(** ** Condition families, further *)

(** X9.  The out-of-disk handler is the readiness handler read backwards:
    on every family it issues the readiness handler's checks, one for one
    and in order, under its own name and with OK and CRITICAL exchanged
    (UNKNOWN stays), with the same tags. *)
Theorem out_of_disk_inverts_ready (message : MetricFamily) (kwargs : Kwargs) :
  kube_node_status_out_of_disk message kwargs =
  (map invert_check (trace (kube_node_status_ready message kwargs)), Ok tt).
Proof.
  rewrite kube_node_status_out_of_disk_run, kube_node_status_ready_run.
  unfold trace. cbn [fst]. f_equal.
  induction (mf_metric message) as [|m ms IH]; simpl; [reflexivity|].
  rewrite map_app, IH. f_equal.
  unfold condition_checks.
  destruct (_extract_label_value "condition" (m_label m)) as [c|]; [|reflexivity].
  destruct (py_bool (m_gauge_value m)); [|reflexivity].
  destruct (String.eqb c "true"); [reflexivity|].
  destruct (String.eqb c "false"); [reflexivity|].
  destruct (String.eqb c "unknown"); reflexivity.
Qed.

(** X10.  A condition handler issues at most one service check per
    sample: on every family and for all keyword arguments the number of its
    checks is at most the number of samples. *)
Theorem check_handlers_at_most_one_per_sample (message : MetricFamily) (kwargs : Kwargs) :
  (List.length (emissions (kube_node_status_ready message kwargs))
   <= List.length (mf_metric message))%nat /\
  (List.length (emissions (kube_node_status_out_of_disk message kwargs))
   <= List.length (mf_metric message))%nat /\
  (List.length (emissions (kube_pod_status_ready message kwargs))
   <= List.length (mf_metric message))%nat.
Proof.
  unfold emissions. split; [|split].
  - etransitivity; [apply filter_length_le|].
    apply trace_for_each_length. intros metric.
    destruct (_eval_metric_condition metric) as [n v].
    apply ready_elif_chain_at_most_one.
  - etransitivity; [apply filter_length_le|].
    apply trace_for_each_length. intros metric.
    destruct (_eval_metric_condition metric) as [n v].
    apply (out_of_disk_body_emits _ n v).
  - rewrite kube_pod_status_ready_elif_eq. unfold kube_pod_status_ready_elif.
    rewrite trace_bind_silent by apply trace_py_get.
    destruct (outcome (py_get _ _)) as [configured_pods|e]; [|simpl; lia].
    assert (Hloop :
      (List.length (filter is_emission
         (trace (for_each (mf_metric message) (pod_body_elif configured_pods))))
       <= List.length (mf_metric message))%nat).
    { etransitivity; [apply filter_length_le|].
      apply trace_for_each_length, pod_body_elif_at_most_one. }
    destruct configured_pods; try exact Hloop.
    simpl. lia.
Qed.

(** ** Pod readiness, further *)

Lemma pod_listed_sample_checks metric :
  (let '(name, val) := _eval_metric_condition metric in
   ready_if_then_if_elif "kube_pod_status_ready"
     [ "namespace:" ++ py_format (_extract_label_value "namespace" (m_label metric));
       "pod:" ++ py_format (_extract_label_value "pod" (m_label metric)) ]
     name val) =
  (pod_checks_if true metric, Ok tt).
Proof.
  rewrite eval_metric_condition_extract.
  unfold pod_checks_if, asserted_status, pod_tags.
  destruct (_extract_label_value "condition" (m_label metric)) as [c|];
    cbn beta iota; rewrite ready_if_then_if_elif_eq;
    unfold ready_elif_chain, eq_and;
    [|now destruct (py_bool (m_gauge_value metric))].
  destruct (py_bool (m_gauge_value metric));
    rewrite ?andb_true_r, ?andb_false_r; [|reflexivity].
  destruct (String.eqb c "true"); [reflexivity|].
  destruct (String.eqb c "false"); [reflexivity|].
  destruct (String.eqb c "unknown"); reflexivity.
Qed.

(** X11.  When the [instance] keyword holds anything but a dict ([None],
    a number, a string, a list), the pod-readiness handler raises
    [AttributeError] before it reads a sample and calls no sink; [process]
    takes that for a missing handler, so the family yields only the debug
    line "Unable to handle metric: kube_pod_status_ready". *)
Theorem pod_ready_instance_not_a_dict
    (interpreter_gives : string -> bool)
    (call_other : string -> MetricFamily -> Kwargs -> M unit)
    (family_name : string) (samples : list Metric) (kwargs : Kwargs) (v : pyval) :
  dict_get kwargs "instance" = Some v ->
  (forall d, v <> VDict d) ->
  kube_pod_status_ready (mkFamily family_name samples) kwargs =
    ([], Raise AttributeError) /\
  process interpreter_gives call_other (mkFamily "kube_pod_status_ready" samples) kwargs =
    ([ELogDebug (unable_to_handle_line "kube_pod_status_ready")], Ok tt).
Proof.
  intros Hinst Hnot.
  assert (Hrun : forall msg, kube_pod_status_ready msg kwargs = ([], Raise AttributeError)).
  { intros msg. unfold kube_pod_status_ready, kwargs_get_instance. cbv zeta.
    rewrite Hinst. destruct v; try reflexivity. now contradiction (Hnot d). }
  split; [apply Hrun|].
  rewrite (process_handler_AttributeError interpreter_gives call_other _ kwargs
             kube_pod_status_ready []);
    [reflexivity | reflexivity | apply Hrun].
Qed.

Lemma pod_ready_instance_not_a_dict_witness :
  kube_pod_status_ready
    (mkFamily "kube_pod_status_ready" [sample_pod "pod-a"])
    [("instance", VList [VStr "pod-a"])] =
  ([], Raise AttributeError).
Proof.
  refine (proj1 (pod_ready_instance_not_a_dict dunder_names (fun _ _ _ => raise TypeError)
                   "kube_pod_status_ready" [sample_pod "pod-a"]
                   [("instance", VList [VStr "pod-a"])] (VList [VStr "pod-a"]) _ _)).
  - reflexivity.
  - discriminate.
Defined.

(** X12.  An allow-list configured as the empty list selects no sample:
    the pod-readiness handler returns without a single sink call, not even
    the debug line it writes for a missing allow-list. *)
Theorem pod_ready_empty_allow_list (message : MetricFamily) (kwargs : Kwargs) :
  pods_configured kwargs [] ->
  kube_pod_status_ready message kwargs = ([], Ok tt).
Proof.
  intros Hconf. rewrite (kube_pod_status_ready_run message kwargs [] Hconf).
  f_equal. induction (mf_metric message) as [|m ms IH]; simpl; [reflexivity|].
  rewrite IH. unfold pod_checks, pod_listed.
  now destruct (_extract_label_value "pod" (m_label m)).
Qed.

Lemma pod_ready_empty_allow_list_witness :
  kube_pod_status_ready
    (mkFamily "kube_pod_status_ready" [sample_pod "pod-a"])
    [("instance", VDict [("status_ready_for_pods", VList [])])] = ([], Ok tt).
Proof.
  apply (pod_ready_empty_allow_list
           (mkFamily "kube_pod_status_ready" [sample_pod "pod-a"])
           [("instance", VDict [("status_ready_for_pods", VList [])])]).
  eexists. split; reflexivity.
Defined.

(** X13.  An allow-list configured as a number is no container: on a
    family with at least one sample the membership test of the first sample
    raises [TypeError], nothing has been emitted, and [process] lets the
    exception out; on a family without samples the handler returns, having
    done nothing. *)
Theorem pod_ready_allow_list_number
    (interpreter_gives : string -> bool)
    (call_other : string -> MetricFamily -> Kwargs -> M unit)
    (family_name : string) (kwargs : Kwargs) (d : list (string * pyval)) (z : Z) :
  dict_get kwargs "instance" = Some (VDict d) ->
  dict_get d "status_ready_for_pods" = Some (VInt z) ->
  (forall sample rest,
     kube_pod_status_ready (mkFamily family_name (sample :: rest)) kwargs =
       ([], Raise TypeError) /\
     process interpreter_gives call_other (mkFamily "kube_pod_status_ready" (sample :: rest)) kwargs =
       ([], Raise TypeError)) /\
  kube_pod_status_ready (mkFamily family_name []) kwargs = ([], Ok tt).
Proof.
  intros Hinst Hkey.
  assert (Hrun : forall name sample rest,
             kube_pod_status_ready (mkFamily name (sample :: rest)) kwargs =
             ([], Raise TypeError)).
  { intros name sample rest. unfold kube_pod_status_ready, kwargs_get_instance. cbv zeta.
    rewrite Hinst. unfold py_get. rewrite Hkey. reflexivity. }
  split.
  - intros sample rest. split; [apply Hrun|].
    apply (process_handler_raises interpreter_gives call_other _ kwargs
             kube_pod_status_ready);
      [reflexivity | apply Hrun | discriminate].
  - unfold kube_pod_status_ready, kwargs_get_instance. cbv zeta.
    rewrite Hinst. unfold py_get. rewrite Hkey. reflexivity.
Qed.

Lemma pod_ready_allow_list_number_witness :
  kube_pod_status_ready
    (mkFamily "kube_pod_status_ready" [sample_pod "pod-a"])
    [("instance", VDict [("status_ready_for_pods", VInt 3)])] = ([], Raise TypeError).
Proof.
  refine (proj1 (proj1 (pod_ready_allow_list_number dunder_names (fun _ _ _ => raise TypeError)
                          "kube_pod_status_ready"
                          [("instance", VDict [("status_ready_for_pods", VInt 3)])]
                          [("status_ready_for_pods", VInt 3)] 3 _ _)
                   (sample_pod "pod-a") [])).
  - reflexivity.
  - reflexivity.
Defined.

Lemma prefix_iff (p s : string) :
  String.prefix p s = true <-> exists post, s = p ++ post.
Proof.
  revert s. induction p as [|a p IH]; intros s.
  - destruct s; simpl; (split; [intros _; eexists; reflexivity | reflexivity]).
  - destruct s as [|b s]; simpl.
    + split; [discriminate | intros [post H]; discriminate].
    + destruct (ascii_dec a b) as [->|Hne].
      * rewrite IH. split; intros [post H]; exists post; [now rewrite H | now injection H].
      * split; [discriminate | intros [post H]; injection H as H1 H2; now contradiction Hne].
Qed.

(** [is_substring] finds the needle wherever it occurs. *)
Lemma is_substring_iff (needle hay : string) :
  is_substring needle hay = true <-> exists pre post, hay = pre ++ needle ++ post.
Proof.
  induction hay as [|a hay IH]; cbn [is_substring].
  - rewrite orb_false_r, prefix_iff. split.
    + intros [post H]. exists "", post. exact H.
    + intros (pre & post & H). destruct pre; [|discriminate]. now exists post.
  - rewrite orb_true_iff, prefix_iff, IH. split.
    + intros [[post H] | (pre & post & H)].
      * exists "", post. exact H.
      * exists (String a pre), post. simpl. now rewrite H.
    + intros (pre & post & H). destruct pre as [|b pre]; simpl in H.
      * left. now exists post.
      * right. injection H as _ H. now exists pre, post.
Qed.

(** X14.  An allow-list configured as one string instead of a list is
    searched, not compared: a sample is selected when its pod name occurs
    anywhere inside the string, so a pod named "pod" is selected by the
    allow-list "pod-a".  For a family whose samples all have a "pod" label
    the handler returns with one check per selected sample that asserts a
    condition, as for a list. *)
Theorem pod_ready_allow_list_string
    (message : MetricFamily) (kwargs : Kwargs) (d : list (string * pyval)) (hay : string) :
  dict_get kwargs "instance" = Some (VDict d) ->
  dict_get d "status_ready_for_pods" = Some (VStr hay) ->
  Forall (fun metric => has_label "pod" (m_label metric) = true) (mf_metric message) ->
  kube_pod_status_ready message kwargs =
    (flat_map (fun metric => pod_checks_if (pod_occurs_in hay metric) metric)
       (mf_metric message), Ok tt) /\
  (forall metric pod,
     _extract_label_value "pod" (m_label metric) = Some pod ->
     (pod_occurs_in hay metric = true <-> exists pre post, hay = pre ++ pod ++ post)).
Proof.
  intros Hinst Hkey Hpods. split.
  - unfold kube_pod_status_ready, kwargs_get_instance. cbv zeta.
    rewrite Hinst. unfold py_get. rewrite Hkey. cbn [bind ret app].
    rewrite (for_each_flat_map
               (fun metric => pod_checks_if (pod_occurs_in hay metric) metric));
      [reflexivity|].
    intros metric Hin. rewrite Forall_forall in Hpods. specialize (Hpods metric Hin).
    unfold pod_occurs_in.
    destruct (_extract_label_value "pod" (m_label metric)) as [pod|] eqn:Epod.
    + unfold py_in. rewrite bind_ret_l.
      destruct (is_substring pod hay); cbn [negb]; [|reflexivity].
      pose proof (pod_listed_sample_checks metric) as Hs. rewrite Epod in Hs.
      exact Hs.
    + apply extract_label_value_None in Epod. congruence.
  - intros metric pod Epod. unfold pod_occurs_in. rewrite Epod.
    apply is_substring_iff.
Qed.

Lemma pod_ready_allow_list_string_witness :
  kube_pod_status_ready
    (mkFamily "kube_pod_status_ready" [sample_pod "pod"; sample_pod "pod-b"])
    [("instance", VDict [("status_ready_for_pods", VStr "pod-a")])] =
  ([EServiceCheck "kube_pod_status_ready" OK ["namespace:default"; "pod:pod"]], Ok tt).
Proof.
  refine (proj1 (pod_ready_allow_list_string
                   (mkFamily "kube_pod_status_ready" [sample_pod "pod"; sample_pod "pod-b"])
                   [("instance", VDict [("status_ready_for_pods", VStr "pod-a")])]
                   [("status_ready_for_pods", VStr "pod-a")] "pod-a" _ _ _)).
  - reflexivity.
  - reflexivity.
  - repeat constructor.
Defined.
